(** * Sentence-similarity benchmark (task-4-sentence-similarity-group-3)

    A shallow embedding of the four benchmark scripts
    [predictor.py], [syntactic.py], [semantic.py] and [llama_predictor.py]:
    the dataset loader, the four raw scorers, the file writers, the
    calibration step and the evaluation step, followed by the properties
    the specification states about them.

    Numbers.  Python floats are IEEE binary64 values; they are modelled by
    Rocq's primitive floats, so parsing, scaling, clipping and ordering run
    on the same values as in the scripts.  The least-squares fit is
    modelled on binary64 values as well, with the library's summation and
    decomposition as parameters; the term weights and their cosine are
    modelled over the reals.

    Text.  Strings are byte strings; the character classes are the ASCII
    ones of CPython. *)

From Stdlib Require Import ZArith NArith List String Ascii Bool Lia.
From Stdlib Require Import Floats Uint63 DecimalString.
From Stdlib Require Import Sorting.Sorted Sorting.Permutation.
From Stdlib Require Import Reals Lra.
Import ListNotations.

Set Implicit Arguments.

(* ================================================================== *)
(** * Part I: the program *)
(* ================================================================== *)

(** ** Python built-ins used by the scripts *)

Module Py.

Local Open Scope N_scope.

Definition code (c : ascii) : N := N_of_ascii c.

(** [str.isspace] on an ASCII character (CPython's [_Py_ascii_whitespace]):
    TAB, LF, VT, FF, CR, the separators FS, GS, RS, US, and the space. *)
Definition isspace (c : ascii) : bool :=
  let n := code c in
  ((9 <=? n) && (n <=? 13)) || ((28 <=? n) && (n <=? 31)) || (n =? 32).

(** C's [isspace] in the "C" locale ([Py_ISSPACE]), which [float] uses to
    strip its argument. *)
Definition c_isspace (c : ascii) : bool :=
  let n := code c in
  ((9 <=? n) && (n <=? 13)) || (n =? 32).

Definition isdigit (c : ascii) : bool :=
  let n := code c in (48 <=? n) && (n <=? 57).

Definition digit_value (c : ascii) : Z := (Z.of_N (code c) - 48)%Z.

(** ASCII lower-casing, as [str.lower] does on ASCII letters. *)
Definition lower (c : ascii) : ascii :=
  let n := code c in
  if (65 <=? n) && (n <=? 90) then ascii_of_N (n + 32) else c.

Local Close Scope N_scope.

(** The maximal runs of characters that are not separators, in reading
    order.  [cur] is the run being read. *)
Fixpoint runs_from (sep : ascii -> bool) (cur : string) (s : string)
  : list string :=
  match s with
  | EmptyString =>
      match cur with EmptyString => [] | _ => [cur] end
  | String c s' =>
      if sep c then
        match cur with
        | EmptyString => runs_from sep EmptyString s'
        | _ => cur :: runs_from sep EmptyString s'
        end
      else runs_from sep (cur ++ String c EmptyString) s'
  end.

(** *** [str.split()] with no argument

    Runs of whitespace separate the chunks and no chunk is empty. *)
Definition split (s : string) : list string :=
  runs_from isspace EmptyString s.

(** *** [float(str)]

    CPython's [float_from_string]: strip white space at both ends, remove
    underscores that stand between two digits (any other underscore is an
    error), then read an optional sign followed by [inf], [infinity] or
    [nan] in any letter case, or by a decimal numeral
    [digits [. digits] [(e|E) [sign] digits]] with at least one digit in
    the mantissa.  Nothing may follow.  The decimal value is rounded to
    the nearest binary64 value, ties to even.  [None] stands for
    [ValueError]. *)

Fixpoint lstrip (s : list ascii) : list ascii :=
  match s with
  | c :: s' => if c_isspace c then lstrip s' else s
  | [] => []
  end.

Definition strip (s : list ascii) : list ascii :=
  rev (lstrip (rev (lstrip s))).

Definition is_underscore (c : ascii) : bool := N.eqb (code c) 95.

(** [prev] is the previous character of the input ([None] at the start). *)
Fixpoint remove_underscores (prev : option ascii) (s : list ascii)
  : option (list ascii) :=
  match s with
  | [] =>
      match prev with
      | Some p => if is_underscore p then None else Some []
      | None => Some []
      end
  | c :: s' =>
      if is_underscore c then
        match prev with
        | Some p => if isdigit p then remove_underscores (Some c) s' else None
        | None => None
        end
      else
        let after_underscore :=
          match prev with Some p => is_underscore p | None => false end in
        if after_underscore && negb (isdigit c) then None
        else option_map (cons c) (remove_underscores (Some c) s')
  end.

Fixpoint span_digits (s : list ascii) : list ascii * list ascii :=
  match s with
  | c :: s' =>
      if isdigit c then let (d, r) := span_digits s' in (c :: d, r)
      else ([], s)
  | [] => ([], [])
  end.

Definition Z_of_digits (ds : list ascii) : Z :=
  fold_left (fun acc c => (10 * acc + digit_value c)%Z) ds 0%Z.

Definition read_sign (s : list ascii) : bool * list ascii :=
  match s with
  | c :: s' =>
      if N.eqb (code c) 45 then (true, s')
      else if N.eqb (code c) 43 then (false, s')
      else (false, s)
  | [] => (false, [])
  end.

Definition is_exponent_mark (c : ascii) : bool :=
  N.eqb (code c) 101 || N.eqb (code c) 69.

Definition is_point (c : ascii) : bool := N.eqb (code c) 46.

(** A decimal numeral as (mantissa digits read as an integer, power of ten). *)
Definition read_decimal (s : list ascii) : option (Z * Z) :=
  let (ip, r1) := span_digits s in
  let (fp, r2) :=
    match r1 with
    | c :: r => if is_point c then span_digits r else ([], r1)
    | [] => ([], [])
    end in
  match ip ++ fp with
  | [] => None
  | _ =>
      let m := Z_of_digits (ip ++ fp) in
      let shift := Z.of_nat (List.length fp) in
      match r2 with
      | [] => Some (m, (- shift)%Z)
      | c :: r3 =>
          if is_exponent_mark c then
            let (eneg, r4) := read_sign r3 in
            let (ed, r5) := span_digits r4 in
            match ed, r5 with
            | _ :: _, [] =>
                let e := Z_of_digits ed in
                Some (m, ((if eneg then - e else e) - shift)%Z)
            | _, _ => None
            end
          else None
      end
  end.

(** The binary64 value nearest to [m * 10^e] for [m >= 0] (ties to even),
    with the given sign.  An integer is rounded directly; a proper fraction
    is the correctly rounded quotient of two integers. *)
Definition decimal_to_SF (neg : bool) (m e : Z) : spec_float :=
  match m with
  | Z0 => S754_zero neg
  | Zneg _ => S754_nan
  | Zpos _ =>
      if (0 <=? e)%Z then
        match (m * 10 ^ e)%Z with
        | Zpos q => binary_round prec emax neg q 0
        | _ => S754_nan
        end
      else
        let '(q, e', l) :=
          SFdiv_core_binary prec emax m 0 (10 ^ (- e))%Z 0 in
        binary_round_aux prec emax neg q e' l
  end.

Definition decimal_to_float (neg : bool) (m e : Z) : float :=
  SF2Prim (decimal_to_SF neg m e).

Definition lower_string (s : list ascii) : string :=
  string_of_list_ascii (map lower s).

Definition float (s : string) : option PrimFloat.float :=
  match remove_underscores None (strip (list_ascii_of_string s)) with
  | None => None
  | Some t =>
      let (neg, body) := read_sign t in
      let word := lower_string body in
      if String.eqb word "inf" || String.eqb word "infinity" then
        Some (if neg then neg_infinity else infinity)
      else if String.eqb word "nan" then Some nan
      else
        match read_decimal body with
        | Some (m, e) => Some (decimal_to_float neg m e)
        | None => None
        end
  end.

(** *** [min(a, b)] and [max(a, b)] on floats

    Both keep the first argument unless the second compares strictly
    smaller (resp. greater); a comparison with NaN is false. *)
Definition min (a b : PrimFloat.float) : PrimFloat.float :=
  if (b <? a)%float then b else a.
Definition max (a b : PrimFloat.float) : PrimFloat.float :=
  if (a <? b)%float then b else a.

(** *** Exceptions and results of calls that may raise *)

Inductive exn := ValueError | IndexError.

Inductive result (A : Type) : Type :=
| Returns (a : A)
| Raises (e : exn).
Arguments Returns {A} a.
Arguments Raises {A} e.

(** *** [sorted(iterable, key=...)]

    The sort is stable and compares keys with [<] only.  On keys that are
    totally preordered by [<] every stable sort returns the same list, so
    the built-in is modelled by stable insertion: an element is placed
    before the first element of the sorted tail whose key is not strictly
    smaller. *)
Section Sorted.
Variables (A K : Type) (key : A -> K) (lt : K -> K -> bool).

Fixpoint insert (x : A) (l : list A) : list A :=
  match l with
  | [] => [x]
  | y :: l' => if lt (key y) (key x) then y :: insert x l' else x :: l
  end.

Definition sorted (l : list A) : list A := fold_right insert [] l.
End Sorted.

(** [<] on two-element tuples of floats: the first position where the
    tuples differ (by [==]) decides; equal tuples are not smaller. *)
Definition tuple_lt (a b : PrimFloat.float * PrimFloat.float) : bool :=
  if (fst a =? fst b)%float then
    if (snd a =? snd b)%float then false else (snd a <? snd b)%float
  else (fst a <? fst b)%float.

(** *** Formatting *)

(** [f"{v:.4f}"]: NaN and the infinities by name, any other value in fixed
    notation with four decimals, correctly rounded (ties to even). *)
Definition decimal_digits (n : Z) : string :=
  NilZero.string_of_uint (N.to_uint (Z.to_N n)).

Definition digit_string (d : Z) : string := decimal_digits (d mod 10).

Definition round_half_even_div (a b : Z) : Z :=
  let q := (a / b)%Z in
  let r := (a mod b)%Z in
  match (2 * r ?= b)%Z with
  | Lt => q
  | Gt => (q + 1)%Z
  | Eq => if Z.even q then q else (q + 1)%Z
  end.

Definition format_4f (v : PrimFloat.float) : string :=
  match Prim2SF v with
  | S754_nan => "nan"
  | S754_infinity s => if s then "-inf" else "inf"
  | S754_zero s => if s then "-0.0000" else "0.0000"
  | S754_finite s m e =>
      let scaled :=
        if (0 <=? e)%Z then (Zpos m * 2 ^ e * 10000)%Z
        else round_half_even_div (Zpos m * 10000) (2 ^ (- e)) in
      ((if s then "-" else "") ++
       decimal_digits (scaled / 10000) ++ "." ++
       digit_string (scaled / 1000) ++ digit_string (scaled / 100) ++
       digit_string (scaled / 10) ++ digit_string scaled)%string
  end.

End Py.

(** ** Text files

    A file system maps a path to the text of the file.  [open(path, "w")]
    truncates the file, every [write] appends to it, and leaving the [with]
    block stores the text written. *)

Definition filesystem := string -> option string.

Definition store (path text : string) (fs : filesystem) : filesystem :=
  fun p => if String.eqb p path then Some text else fs p.

Definition nl : string := String (ascii_of_nat 10) EmptyString.

(** The lines of a text in which every line ends with a line feed, as a
    reader of the file sees them; an unterminated rest counts as a line. *)
Fixpoint lines_from (cur : string) (s : string) : list string :=
  match s with
  | EmptyString => match cur with EmptyString => [] | _ => [cur] end
  | String c s' =>
      if Ascii.eqb c (ascii_of_nat 10) then cur :: lines_from EmptyString s'
      else lines_from (cur ++ String c EmptyString) s'
  end.

Definition lines (s : string) : list string := lines_from EmptyString s.

(** ** The dataset loader

    [csv.reader] hands the loader one row at a time, a row being the list of
    its fields.  The loader keeps three lists and prints a message for a row
    it gives up on in the [except ValueError] branch. *)

Definition row := list string.

Record loader_state := {
  sents1 : list string;
  sents2 : list string;
  scores : list float;
  printed : list (nat * row)   (* "Skipping line {row_idx} ...: {row}" *)
}.

Definition loader_start : loader_state :=
  {| sents1 := []; sents2 := []; scores := []; printed := [] |}.

(** [row[i]]; the loaders only index rows of at least 7 fields. *)
Definition field (r : row) (i : nat) : string := nth i r EmptyString.

Definition for_rows (body : loader_state -> nat -> row -> loader_state)
  (reader : list row) : loader_state :=
  snd (fold_left (fun '(row_idx, st) r => (S row_idx, body st row_idx r))
         reader (0, loader_start)).

(** ** Library routines the scripts call *)

(** [scipy.stats.pearsonr]. *)
Module Scipy.

Local Open Scope float_scope.

(** [(x == x[0]).all()]. *)
Definition is_constant (x : list float) : bool :=
  match x with
  | [] => true
  | x0 :: _ => forallb (fun v => v =? x0) x
  end.

Section Pearson.
(** The coefficient the library computes from two non-constant inputs of
    equal length at least 2; its arithmetic is the library's own. *)
Variable coefficient : list float -> list float -> float.

(** [pearsonr(x, y)[0]].  Before any arithmetic the library refuses
    inputs of different lengths or of fewer than two elements, and
    answers NaN (with a [ConstantInputWarning]) when an input is
    constant. *)
Definition pearsonr (x y : list float) : Py.result float :=
  let n := List.length x in
  if negb (n =? List.length y)%nat then Py.Raises Py.ValueError
  else if (n <? 2)%nat then Py.Raises Py.ValueError
  else if is_constant x || is_constant y then Py.Returns nan
  else Py.Returns (coefficient x y).
End Pearson.

End Scipy.

(** [sklearn]: the linear model, the term-weighting vectorizer and the
    cosine of two rows.  The linear model computes on binary64 values, as
    the library does; the vectorizer and the cosine are taken over the
    reals. *)
Module Sklearn.

(** *** [LinearRegression().fit(X, y)] on one feature

    The estimator first validates its input: a sample of no row, columns of
    different lengths and an entry that is NaN or infinite each raise
    [ValueError].  With its default [fit_intercept=True] it then subtracts
    from each column its average ([np.average(., axis=0)]), hands the
    centred columns to [scipy.linalg.lstsq], and sets the intercept to
    [y_offset - X_offset * coef].

    [scipy.linalg.lstsq] raises [ValueError] on an entry that is not finite
    and calls LAPACK's [dgelsd], which returns the zero solution for a
    matrix whose entries are all zero and otherwise solves through a
    singular value decomposition.  The order in which numpy adds up a
    column and the arithmetic of the decomposition are the libraries' own:
    [average] and [gelsd] stand for them. *)

Section LinearModel.

Variable average : list float -> float.
Variable gelsd : list float -> list float -> float.

Definition all_finite (l : list float) : bool := forallb is_finite l.

Definition lstsq (a b : list float) : Py.result float :=
  if negb (all_finite a && all_finite b) then Py.Raises Py.ValueError
  else if forallb (fun v => v =? 0)%float a then Py.Returns 0%float
  else Py.Returns (gelsd a b).

Record LinearRegression := { coef_ : float; intercept_ : float }.

Definition fit (X y : list float) : Py.result LinearRegression :=
  if (List.length X =? 0)%nat then Py.Raises Py.ValueError
  else if negb (List.length X =? List.length y)%nat
  then Py.Raises Py.ValueError
  else if negb (all_finite X && all_finite y) then Py.Raises Py.ValueError
  else
    let X_offset := average X in
    let y_offset := average y in
    let X := map (fun v => v - X_offset)%float X in
    let y := map (fun v => v - y_offset)%float y in
    match lstsq X y with
    | Py.Raises e => Py.Raises e
    | Py.Returns coef =>
        Py.Returns {| coef_ := coef;
                      intercept_ := (y_offset - X_offset * coef)%float |}
    end.

End LinearModel.

Local Open Scope R_scope.

Definition sum (l : list R) : R := fold_right Rplus 0 l.

Definition dot (u v : list R) : R :=
  sum (map (fun p => fst p * snd p) (combine u v)).

(** *** [normalize] and [cosine_similarity] on single rows

    A row is divided by its Euclidean norm; a row of norm zero is left as
    it is.  The cosine is the dot product of the two normalized rows. *)

Definition norm2 (v : list R) : R := sqrt (dot v v).

Definition normalize (v : list R) : list R :=
  if Req_dec_T (norm2 v) 0 then v else map (fun x => x / norm2 v) v.

Definition cosine_similarity (X Y : list R) : R :=
  dot (normalize X) (normalize Y).

(** *** [TfidfVectorizer(lowercase=True, stop_words=None)]

    The default analyzer lower-cases the document and takes the matches of
    [\b\w\w+\b]: the maximal runs of word characters (on ASCII text the
    letters, the digits and the underscore) that are at least two
    characters long.  [fit] collects
    the vocabulary and the smoothed inverse document frequencies
    [ln((1 + n) / (1 + df(t))) + 1]; it raises on an empty vocabulary.
    [transform] weights the term counts of a document by the frequencies
    and normalizes the row.  The vocabulary is kept in order of first
    occurrence: the order of the features does not change a dot product. *)

Definition isword (c : ascii) : bool :=
  let n := Py.code c in
  (Py.isdigit c || ((65 <=? n) && (n <=? 90)) || ((97 <=? n) && (n <=? 122))
   || (n =? 95))%N.

Definition analyze (doc : string) : list string :=
  filter (fun t => 2 <=? String.length t)%nat
    (Py.runs_from (fun c => negb (isword c)) EmptyString
       (Py.lower_string (list_ascii_of_string doc))).

Definition mentions (t : string) (doc : string) : bool :=
  existsb (String.eqb t) (analyze doc).

(** Number of documents that contain the term. *)
Definition df (raw_documents : list string) (t : string) : nat :=
  List.length (filter (mentions t) raw_documents).

Record TfidfVectorizer := {
  vocabulary_ : list string;
  idf_ : string -> R
}.

Definition tfidf_fit (raw_documents : list string)
  : Py.result TfidfVectorizer :=
  match nodup string_dec (List.concat (map analyze raw_documents)) with
  | [] => Py.Raises Py.ValueError            (* empty vocabulary *)
  | vocabulary =>
      let n := List.length raw_documents in
      Py.Returns
        {| vocabulary_ := vocabulary;
           idf_ := fun t => ln ((1 + INR n) / (1 + INR (df raw_documents t))) + 1 |}
  end.

(** [transform([doc])]: one row over the vocabulary. *)
Definition transform (vectorizer : TfidfVectorizer) (doc : string) : list R :=
  normalize
    (map (fun t => INR (count_occ string_dec (analyze doc) t) * idf_ vectorizer t)
       (vocabulary_ vectorizer)).

End Sklearn.

(** ** The four scripts *)

(** [predictor.py]. *)
Module Predictor.

Definition load_row (st : loader_state) (row_idx : nat) (r : row)
  : loader_state :=
  match r with
  | [] => st                                   (* not row *)
  | _ =>
      if List.length r <? 7 then st            (* continue *)
      else
        match Py.float (field r 4) with
        | Some score =>
            {| sents1 := sents1 st ++ [field r 5];
               sents2 := sents2 st ++ [field r 6];
               scores := scores st ++ [score];
               printed := printed st |}
        | None =>
            {| sents1 := sents1 st; sents2 := sents2 st;
               scores := scores st;
               printed := printed st ++ [(row_idx, r)] |}
        end
  end.

Definition load_sts_data_csv (reader : list row)
  : list string * list string * list float :=
  let st := for_rows load_row reader in (sents1 st, sents2 st, scores st).

(** One score per line; [str] is the text [f"{s}"] gives for a score. *)
Definition save_scores_to_file (A : Type) (str : A -> string)
  (scores : list A) (file_path : string) (fs : filesystem) : filesystem :=
  store file_path
    (fold_left (fun f s => f ++ (str s ++ nl))%string scores EmptyString) fs.

Section Evaluate.
Variable coefficient : list float -> list float -> float.

(** Step (G) of [main]: [pearson_corr, _ = pearsonr(test_pred_final,
    test_gt)] and the [print] that follows; the result is the value kept
    in [pearson_corr] and the line printed. *)
Definition main_evaluate (test_pred_final test_gt : list float)
  : Py.result (float * string) :=
  match Scipy.pearsonr coefficient test_pred_final test_gt with
  | Py.Raises e => Py.Raises e
  | Py.Returns pearson_corr =>
      Py.Returns
        (pearson_corr,
         ("Pearson Correlation (Test) = " ++ Py.format_4f pearson_corr)%string)
  end.
End Evaluate.

(** [data = sorted(zip(test_pred_final, test_gt),
    key=lambda p: (p[0], p[1]))]. *)
Definition main_data (test_pred_final test_gt : list float)
  : list (float * float) :=
  Py.sorted (fun p => (fst p, snd p)) Py.tuple_lt
    (combine test_pred_final test_gt).

End Predictor.

(** [syntactic.py]. *)
Module Syntactic.

Definition load_row (st : loader_state) (row_idx : nat) (r : row)
  : loader_state :=
  if List.length r <? 7 then st
  else
    match Py.float (field r 4) with
    | Some score =>
        {| scores := scores st ++ [score];
           sents1 := sents1 st ++ [field r 5];
           sents2 := sents2 st ++ [field r 6];
           printed := printed st |}
    | None =>
        {| sents1 := sents1 st; sents2 := sents2 st;
           scores := scores st;
           printed := printed st ++ [(row_idx, r)] |}
    end.

Definition load_sts_data_tsv (reader : list row)
  : list string * list string * list float :=
  let st := for_rows load_row reader in (sents1 st, sents2 st, scores st).

Definition compute_tfidf_similarities (sents1 sents2 : list string)
  (vectorizer : Sklearn.TfidfVectorizer) : list R :=
  map (fun p =>
         let v1 := Sklearn.transform vectorizer (fst p) in
         let v2 := Sklearn.transform vectorizer (snd p) in
         Sklearn.cosine_similarity v1 v2)
      (combine sents1 sents2).

(** Step 4.2 of [main]: the vectorizer is fit on
    [train_sents1 + train_sents2]. *)
Definition main_vectorizer (train_sents1 train_sents2 : list string)
  : Py.result Sklearn.TfidfVectorizer :=
  Sklearn.tfidf_fit (train_sents1 ++ train_sents2).

Definition save_scores_to_file (A : Type) (str : A -> string)
  (scores : list A) (file_path : string) (fs : filesystem) : filesystem :=
  store file_path
    (fold_left (fun f s => f ++ (str s ++ nl))%string scores EmptyString) fs.

End Syntactic.

(** [semantic.py]. *)
Module Semantic.

Section Model.
(** The loaded sentence-embedding model maps a sentence to a vector;
    [model.encode] does so for every sentence of a batch, in order.
    [cosine_similarity] is the library's cosine of two vectors. *)
Variables (V S : Type).
Variable embed : string -> V.
Variable cosine_similarity : V -> V -> S.

Definition encode (sentences : list string) : list V := map embed sentences.

(** One turn of [for i in range(half)]; indexing past the end of an
    array raises [IndexError]. *)
Definition pair_step (emb_sents1 emb_sents2 : list V)
  (sims : Py.result (list S)) (i : nat) : Py.result (list S) :=
  match sims with
  | Py.Raises e => Py.Raises e
  | Py.Returns sims =>
      match nth_error emb_sents1 i, nth_error emb_sents2 i with
      | Some v1, Some v2 => Py.Returns (sims ++ [cosine_similarity v1 v2])
      | _, _ => Py.Raises Py.IndexError
      end
  end.

Definition compute_semantic_similarities (sents1 sents2 : list string)
  : Py.result (list S) :=
  let all_sentences := sents1 ++ sents2 in
  let all_embeddings := encode all_sentences in
  let half := List.length sents1 in
  let emb_sents1 := firstn half all_embeddings in
  let emb_sents2 := skipn half all_embeddings in
  fold_left (pair_step emb_sents1 emb_sents2) (seq 0 half) (Py.Returns []).
End Model.

End Semantic.

(** [llama_predictor.py]. *)
Module Llama.

(** What the [try] block sees of [chat(...)]: an exception anywhere in the
    block, or the reply's text. *)
Inductive chat_outcome :=
| ChatRaised
| ChatReplied (content : string).

Definition prompt_text (sent1 sent2 : string) : string :=
  (nl ++
   "    You are a helpful assistant that rates semantic similarity between sentences." ++ nl ++
   "    Return *only* a single decimal number between 0.0 and 1.0 representing similarity." ++ nl ++
   "    0.0 means completely different, 1.0 means identical. No extra text or explanation." ++ nl ++
   nl ++
   "    Sentence 1: " ++ sent1 ++ nl ++
   "    Sentence 2: " ++ sent2 ++ nl ++
   "    Please output the numerical similarity score between 0.0 and 1.0, and *nothing else*." ++ nl ++
   "    ")%string.

(** [for chunk in output.split(): try: float_val = float(chunk); break
    except ValueError: pass], starting from [float_val = None]. *)
Fixpoint first_float (chunks : list string) : option float :=
  match chunks with
  | [] => None
  | chunk :: rest =>
      match Py.float chunk with
      | Some v => Some v
      | None => first_float rest
      end
  end.

(** Lines 84-103: parse, scale by 5.0, clip to [0, 5]. *)
Definition score_of_output (output : string) : option float :=
  match first_float (Py.split output) with
  | None => None
  | Some float_val =>
      let float_val := (float_val * 5)%float in
      Some (Py.max 0%float (Py.min 5%float float_val))
  end.

Section Ollama.
(** The model server: a call consumes the prompt and moves the server
    (and its sampler) to a new state. *)
Variable World : Type.
Variable chat : string -> World -> chat_outcome * World.

Definition get_llm_similarity_ollama (sent1 sent2 : string) (w : World)
  : option float * World :=
  let (r, w') := chat (prompt_text sent1 sent2) w in
  match r with
  | ChatReplied output => (score_of_output output, w')
  | ChatRaised => (None, w')                  (* except Exception *)
  end.

(** The loop of [main] that fills [train_pred_raw] (and [test_pred_raw]). *)
Definition pred_raw_step (st : list float * World) (p : string * string)
  : list float * World :=
  let (pred_raw, w) := st in
  let (val, w') := get_llm_similarity_ollama (fst p) (snd p) w in
  let val := match val with None => 2.5%float | Some v => v end in
  (pred_raw ++ [val], w').

Definition main_pred_raw (sents1 sents2 : list string) (w : World)
  : list float * World :=
  fold_left pred_raw_step (combine sents1 sents2) ([], w).
End Ollama.

(** The scores are written one after the other, with nothing between. *)
Definition save_scores_to_file (A : Type) (str : A -> string)
  (scores : list A) (file_path : string) (fs : filesystem) : filesystem :=
  store file_path
    (fold_left (fun f s => f ++ str s)%string scores EmptyString) fs.

End Llama.

(** ** The specification's vocabulary *)

(** A row the loader is to keep: at least 7 fields, and field 4 reads as a
    float. *)
Definition accepted (r : row) : bool :=
  (7 <=? List.length r)%nat
  && match Py.float (field r 4) with Some _ => true | None => false end.

(** The ground truth of a kept row. *)
Definition ground_truth (r : row) : float :=
  match Py.float (field r 4) with Some v => v | None => nan end.

(** The records of the kept rows, in the order of the file. *)
Definition records_of (reader : list row)
  : list string * list string * list float :=
  let kept := filter accepted reader in
  (map (fun r => field r 5) kept, map (fun r => field r 6) kept,
   map ground_truth kept).

(** An elicitation fails when the call raises or when no chunk of the reply
    reads as a float. *)
Definition elicitation_fails (r : Llama.chat_outcome) : Prop :=
  match r with
  | Llama.ChatRaised => True
  | Llama.ChatReplied output =>
      Forall (fun c => Py.float c = None) (Py.split output)
  end.

(** Ascending by prediction, ties broken ascending by ground truth. *)
Definition lex_le (a b : float * float) : Prop :=
  (fst a <? fst b)%float = true
  \/ ((fst a =? fst b)%float = true /\ (snd a <=? snd b)%float = true).

(** Neither component is NaN. *)
Definition is_numeric (p : float * float) : Prop :=
  is_nan (fst p) = false /\ is_nan (snd p) = false.

(** A text without a line feed, as the text of a number is. *)
Fixpoint line_feed_free (s : string) : bool :=
  match s with
  | EmptyString => true
  | String c s' => negb (Ascii.eqb c (ascii_of_nat 10)) && line_feed_free s'
  end.

(** The correlation step hands on a float (a number or NaN) and prints it,
    which is what reporting the correlation as undefined is not. *)
Definition hands_on_a_float (o : Py.result (float * string)) : Prop :=
  exists pearson_corr line, o = Py.Returns (pearson_corr, line).

(** What a loop body must do to a row for the loop to compute
    [records_of]. *)
Definition keeps_accepted_rows
  (body : loader_state -> nat -> row -> loader_state) : Prop :=
  forall st i r,
    sents1 (body st i r) = sents1 st ++ (if accepted r then [field r 5] else [])
    /\ sents2 (body st i r) = sents2 st ++ (if accepted r then [field r 6] else [])
    /\ scores (body st i r) = scores st ++ (if accepted r then [ground_truth r] else []).

(** The state of the model server when the loop of [main] reaches pair
    number [i]. *)
Definition world_at (World : Type)
  (chat : string -> World -> Llama.chat_outcome * World)
  (pairs : list (string * string)) (w : World) (i : nat) : World :=
  snd (fold_left (Llama.pred_raw_step chat) (firstn i pairs) ([], w)).

(** A model server that fails on its first call and then answers in words. *)
Definition moody_chat (prompt : string) (calls : nat)
  : Llama.chat_outcome * nat :=
  (match calls with
   | O => Llama.ChatRaised
   | S _ => Llama.ChatReplied "very similar"
   end, S calls).

(** The place of a value that is not NaN on the line of the extended reals:
    first its region (negative infinity, negative, zero, positive, positive
    infinity), then exponent and mantissa, both negated for a negative
    value.  The two zeros share a place. *)
Definition SFplace (x : spec_float) : Z * Z * Z :=
  match x with
  | S754_infinity true => (-2, 0, 0)%Z
  | S754_finite true m e => (-1, - e, - Zpos m)%Z
  | S754_zero _ => (0, 0, 0)%Z
  | S754_finite false m e => (1, e, Zpos m)%Z
  | S754_infinity false => (2, 0, 0)%Z
  | S754_nan => (3, 0, 0)%Z
  end.

Definition place (x : float) : Z * Z * Z := SFplace (Prim2SF x).

Definition place_lt (a b : Z * Z * Z) : Prop :=
  (fst (fst a) < fst (fst b)
   \/ (fst (fst a) = fst (fst b)
       /\ (snd (fst a) < snd (fst b)
           \/ (snd (fst a) = snd (fst b) /\ snd a < snd b))))%Z.

(** The average as a straight loop computes it: the entries added one after
    the other to a sum that starts at 0, the sum divided by the count.  This
    is the value of [np.average] on a column of fewer than 8 entries. *)
Definition straight_average (l : list float) : float :=
  (fold_left PrimFloat.add l 0 / of_uint63 (Uint63.of_Z (Z.of_nat (List.length l))))%float.

(** ** The rest of the scripts *)

Definition tab : string := String (ascii_of_nat 9) EmptyString.

(** The loader of [llama_predictor.py]; the delimiter it takes is the
    business of [csv.reader]. *)
Module LlamaLoader.

Definition load_row (st : loader_state) (row_idx : nat) (r : row)
  : loader_state :=
  if List.length r <? 7 then st
  else
    match Py.float (field r 4) with
    | Some score =>
        {| sents1 := sents1 st ++ [field r 5];
           sents2 := sents2 st ++ [field r 6];
           scores := scores st ++ [score];
           printed := printed st |}
    | None =>
        {| sents1 := sents1 st; sents2 := sents2 st;
           scores := scores st;
           printed := printed st ++ [(row_idx, r)] |}
    end.

Definition load_sts_data_csv (reader : list row)
  : list string * list string * list float :=
  let st := for_rows load_row reader in (sents1 st, sents2 st, scores st).

End LlamaLoader.

(** The loader and the writer of [semantic.py]. *)
Module SemanticFiles.

Definition load_row (st : loader_state) (row_idx : nat) (r : row)
  : loader_state :=
  if List.length r <? 7 then st
  else
    match Py.float (field r 4) with
    | Some score =>
        {| scores := scores st ++ [score];
           sents1 := sents1 st ++ [field r 5];
           sents2 := sents2 st ++ [field r 6];
           printed := printed st |}
    | None =>
        {| sents1 := sents1 st; sents2 := sents2 st;
           scores := scores st;
           printed := printed st ++ [(row_idx, r)] |}
    end.

Definition load_sts_data_csv (reader : list row)
  : list string * list string * list float :=
  let st := for_rows load_row reader in (sents1 st, sents2 st, scores st).

Definition save_scores_to_file (A : Type) (str : A -> string)
  (scores : list A) (file_path : string) (fs : filesystem) : filesystem :=
  store file_path
    (fold_left (fun f s => f ++ (str s ++ nl))%string scores EmptyString) fs.

End SemanticFiles.

(** Pieces of [main] that the four scripts share. *)
Module Main.

(** [with open(path, "w") as f: for s1, s2, score in zip(sents1, sents2,
    pred_raw): f.write(f"{s1}\t{s2}\t{score}\n")]. *)
Definition sentence_line (A : Type) (str : A -> string)
  (rec : string * (string * A)) : string :=
  (fst rec ++ tab ++ fst (snd rec) ++ tab ++ str (snd (snd rec)))%string.

Definition save_sentences (A : Type) (str : A -> string)
  (sents1 sents2 : list string) (pred_raw : list A)
  (file_path : string) (fs : filesystem) : filesystem :=
  store file_path
    (fold_left (fun f rec => f ++ (sentence_line str rec ++ nl))%string
       (combine sents1 (combine sents2 pred_raw)) EmptyString) fs.

(** [x_sorted = [d[0] for d in data]] and [y_sorted = [d[1] for d in data]]. *)
Definition x_sorted (data : list (float * float)) : list float := map fst data.
Definition y_sorted (data : list (float * float)) : list float := map snd data.

End Main.

(** [random_uniform_predictor] of [predictor.py].  [random.uniform(low,
    high)] is [low + (high - low) * random()]; the generator hands out one
    float per call and moves on. *)
Module RandomPredictor.

Section Generator.
Variable Rng : Type.
Variable random : Rng -> float * Rng.

Definition uniform (low high : float) (g : Rng) : float * Rng :=
  let (u, g') := random g in ((low + (high - low) * u)%float, g').

Definition random_uniform_predictor (num_pairs : nat) (low high : float)
  (g : Rng) : list float * Rng :=
  fold_left (fun st _ =>
               let (v, g') := uniform low high (snd st) in
               (fst st ++ [v], g'))
    (seq 0 num_pairs) ([], g).
End Generator.

End RandomPredictor.

(** What the loader prints for a row: a message for a row of at least 7
    fields whose field 4 does not read as a float, nothing otherwise. *)
Definition reported (r : row) : bool :=
  (7 <=? List.length r)%nat
  && match Py.float (field r 4) with Some _ => false | None => true end.

(** The rows of a file with their indices, counted from [base]. *)
Fixpoint enumerate (base : nat) (reader : list row) : list (nat * row) :=
  match reader with
  | [] => []
  | r :: rest => (base, r) :: enumerate (Datatypes.S base) rest
  end.

(** A float between 0 and 5, the two ends included (so not NaN). *)
Definition in_target_range (v : float) : Prop :=
  (0 <=? v)%float = true /\ (v <=? 5)%float = true.

(** One request per pair, in the order of the pairs: the state of the model
    server after the prompts of [pairs] have been sent to it one by one. *)
Definition after_prompts (World : Type)
  (chat : string -> World -> Llama.chat_outcome * World)
  (pairs : list (string * string)) (w : World) : World :=
  fold_left (fun w p => snd (chat (Llama.prompt_text (fst p) (snd p)) w))
    pairs w.

(** A text without white space. *)
Fixpoint space_free (s : string) : bool :=
  match s with
  | EmptyString => true
  | String c s' => negb (Py.isspace c) && space_free s'
  end.

(** A text without a tab. *)
Fixpoint tab_free (s : string) : bool :=
  match s with
  | EmptyString => true
  | String c s' => negb (Ascii.eqb c (ascii_of_nat 9)) && tab_free s'
  end.

(** The fields of a line, split at its tabs. *)
Fixpoint fields_from (cur : string) (s : string) : list string :=
  match s with
  | EmptyString => [cur]
  | String c s' =>
      if Ascii.eqb c (ascii_of_nat 9) then cur :: fields_from EmptyString s'
      else fields_from (cur ++ String c EmptyString) s'
  end.

Definition fields (s : string) : list string := fields_from EmptyString s.

(** What a loop body must do to the messages for the loop to print one
    message per reported row, with the index of the row. *)
Definition prints_reported_rows
  (body : loader_state -> nat -> row -> loader_state) : Prop :=
  forall st i r,
    printed (body st i r) = printed st ++ (if reported r then [(i, r)] else []).

(* ================================================================== *)
(** * Part II: properties *)
(* ================================================================== *)

(** ** The model at work on small inputs *)

Example float_accepts :
  Py.float "0.8" = Some 0x1.999999999999ap-1%float
  /\ Py.float " 5.000 " = Some 5%float
  /\ Py.float "1_0.5e1" = Some 105%float
  /\ Py.float "-Infinity" = Some neg_infinity
  /\ Py.float ".5" = Some 0.5%float
  /\ Py.float "1e400" = Some infinity.
Proof. repeat split; vm_compute; reflexivity. Qed.

Example float_refuses :
  Py.float "score" = None /\ Py.float "(high" = None /\ Py.float "1e" = None
  /\ Py.float "." = None /\ Py.float "" = None /\ Py.float "1__0" = None
  /\ Py.float "0x10" = None /\ Py.float "0.8," = None.
Proof. repeat split; vm_compute; reflexivity. Qed.

Example format_4f_examples :
  Py.format_4f 0.5%float = "0.5000"%string
  /\ Py.format_4f 12.34375%float = "12.3438"%string
  /\ Py.format_4f (-0.25)%float = "-0.2500"%string
  /\ Py.format_4f nan = "nan"%string.
Proof. repeat split; vm_compute; reflexivity. Qed.

Example load_example :
  Predictor.load_sts_data_csv
    [ ["genre"; "file"; "year"; "id"; "score"; "sentence1"; "sentence2"];
      ["main-captions"; "MSRvid"; "2012test"; "0001"; "5.000";
       "A plane is taking off."; "An air plane is taking off."];
      ["main-captions"; "MSRvid"];
      ["main-captions"; "MSRvid"; "2012test"; "0002"; "2"; ""; "A man."; "x"] ]%string
  = (["A plane is taking off."; ""]%string,
     ["An air plane is taking off."; "A man."]%string,
     [5; 2]%float).
Proof. vm_compute. reflexivity. Qed.

Example analyze_example :
  Sklearn.analyze "A cat sat, I think: OK_1!" = ["cat"; "sat"; "think"; "ok_1"]%string
  /\ Sklearn.analyze "a" = [].
Proof. split; vm_compute; reflexivity. Qed.

Example main_data_example :
  Predictor.main_data [3; 1; 2; 1]%float [1; 2; 5; 0]%float
  = [(1, 0); (1, 2); (2, 5); (3, 1)]%float.
Proof. vm_compute. reflexivity. Qed.

(** ** Comparisons of binary64 values *)

Section FloatOrder.

Local Open Scope float_scope.

Lemma compare_cont_Eq_antisym (p q : positive) :
  PosDef.Pos.compare_cont Eq q p = CompOpp (PosDef.Pos.compare_cont Eq p q).
Proof. exact (eq_sym (Pos.compare_cont_antisym p q Eq)). Qed.

Lemma SFcompare_antisym (x y : spec_float) :
  SFcompare y x = option_map CompOpp (SFcompare x y).
Proof.
  destruct x as [sx|sx| |sx mx ex], y as [sy|sy| |sy my ey]; simpl;
    try reflexivity;
    try (destruct sx; reflexivity); try (destruct sy; reflexivity);
    try (destruct sx, sy; reflexivity).
  destruct sx, sy; try reflexivity;
    rewrite (Z.compare_antisym ex ey), (compare_cont_Eq_antisym mx my);
    destruct (ex ?= ey)%Z; simpl; try reflexivity;
    destruct (PosDef.Pos.compare_cont Eq mx my); reflexivity.
Qed.

Lemma SFcompare_None (x y : spec_float) :
  SFcompare x y = None -> x = S754_nan \/ y = S754_nan.
Proof.
  destruct x as [sx|sx| |sx mx ex], y as [sy|sy| |sy my ey]; simpl;
    intros H; try discriminate H; auto.
Qed.

Lemma ltb_leb (a b : float) : (a <? b) = true -> (a <=? b) = true.
Proof.
  rewrite FloatAxioms.ltb_spec, FloatAxioms.leb_spec. unfold SFltb, SFleb.
  destruct (SFcompare (Prim2SF a) (Prim2SF b)) as [[ | | ]|];
    intros H; try discriminate H; reflexivity.
Qed.

Lemma eqb_sym (a b : float) : (a =? b) = (b =? a).
Proof.
  rewrite !FloatAxioms.eqb_spec. unfold SFeqb.
  rewrite (SFcompare_antisym (Prim2SF a) (Prim2SF b)).
  destruct (SFcompare (Prim2SF a) (Prim2SF b)) as [[ | | ]|]; reflexivity.
Qed.

Lemma eqb_leb (a b : float) : (a =? b) = true -> (a <=? b) = true.
Proof.
  rewrite FloatAxioms.eqb_spec, FloatAxioms.leb_spec. unfold SFeqb, SFleb.
  destruct (SFcompare (Prim2SF a) (Prim2SF b)) as [[ | | ]|];
    intros H; try discriminate H; reflexivity.
Qed.

Lemma is_nan_Prim2SF (a : float) :
  is_nan a = false -> Prim2SF a <> S754_nan.
Proof.
  unfold is_nan. rewrite FloatAxioms.eqb_spec. unfold SFeqb. intros H E.
  rewrite E in H. discriminate H.
Qed.

(** Two values that are not NaN are comparable. *)
Lemma not_ltb_leb (a b : float) :
  is_nan a = false -> is_nan b = false ->
  (a <? b) = false -> (b <=? a) = true.
Proof.
  intros Ha Hb. apply is_nan_Prim2SF in Ha. apply is_nan_Prim2SF in Hb.
  rewrite FloatAxioms.ltb_spec, FloatAxioms.leb_spec. unfold SFltb, SFleb.
  rewrite (SFcompare_antisym (Prim2SF a) (Prim2SF b)).
  destruct (SFcompare (Prim2SF a) (Prim2SF b)) as [[ | | ]|] eqn:E;
    intros H; try discriminate H; try reflexivity.
  apply SFcompare_None in E. tauto.
Qed.

Lemma not_ltb_not_eqb_ltb (a b : float) :
  is_nan a = false -> is_nan b = false ->
  (a <? b) = false -> (a =? b) = false -> (b <? a) = true.
Proof.
  intros Ha Hb. apply is_nan_Prim2SF in Ha. apply is_nan_Prim2SF in Hb.
  rewrite !FloatAxioms.ltb_spec, FloatAxioms.eqb_spec. unfold SFltb, SFeqb.
  rewrite (SFcompare_antisym (Prim2SF a) (Prim2SF b)).
  destruct (SFcompare (Prim2SF a) (Prim2SF b)) as [[ | | ]|] eqn:E;
    intros H1 H2; try discriminate; try reflexivity.
  apply SFcompare_None in E. tauto.
Qed.

Lemma SFcompare_place (x y : spec_float) (c : comparison) :
  SFcompare x y = Some c ->
  match c with
  | Lt => place_lt (SFplace x) (SFplace y)
  | Eq => SFplace x = SFplace y
  | Gt => place_lt (SFplace y) (SFplace x)
  end.
Proof.
  destruct x as [sx|sx| |sx mx ex], y as [sy|sy| |sy my ey];
    try destruct sx; try destruct sy; simpl; intros H;
    try discriminate H; injection H as <-;
    unfold place_lt; simpl; try reflexivity; try lia.
  - change (PosDef.Pos.compare_cont Eq mx my) with (Pos.compare mx my).
    destruct (Z.compare_spec ex ey) as [->|He|He]; simpl; try lia.
    destruct (Pos.compare_spec mx my) as [->|Hm|Hm]; simpl;
      [reflexivity|lia|lia].
  - change (PosDef.Pos.compare_cont Eq mx my) with (Pos.compare mx my).
    destruct (Z.compare_spec ex ey) as [->|He|He]; simpl; try lia.
    destruct (Pos.compare_spec mx my) as [->|Hm|Hm]; simpl;
      [reflexivity|lia|lia].
Qed.

Lemma place_lt_irrefl (a b : Z * Z * Z) : place_lt a b -> a <> b.
Proof. unfold place_lt. intros H ->. lia. Qed.

Lemma place_lt_asym (a b : Z * Z * Z) : place_lt a b -> ~ place_lt b a.
Proof. unfold place_lt. lia. Qed.

Lemma place_lt_trans (a b c : Z * Z * Z) :
  place_lt a b -> place_lt b c -> place_lt a c.
Proof. unfold place_lt. lia. Qed.

Lemma ltb_place (a b : float) :
  (a <? b) = true -> place_lt (place a) (place b).
Proof.
  rewrite FloatAxioms.ltb_spec. unfold SFltb, place.
  destruct (SFcompare (Prim2SF a) (Prim2SF b)) as [[ | | ]|] eqn:E;
    intros H; try discriminate H.
  apply (SFcompare_place _ _ E).
Qed.

Lemma eqb_place (a b : float) : (a =? b) = true -> place a = place b.
Proof.
  rewrite FloatAxioms.eqb_spec. unfold SFeqb, place.
  destruct (SFcompare (Prim2SF a) (Prim2SF b)) as [[ | | ]|] eqn:E;
    intros H; try discriminate H.
  apply (SFcompare_place _ _ E).
Qed.

Lemma leb_place (a b : float) :
  (a <=? b) = true -> place_lt (place a) (place b) \/ place a = place b.
Proof.
  rewrite FloatAxioms.leb_spec. unfold SFleb, place.
  destruct (SFcompare (Prim2SF a) (Prim2SF b)) as [[ | | ]|] eqn:E;
    intros H; try discriminate H.
  - right. apply (SFcompare_place _ _ E).
  - left. apply (SFcompare_place _ _ E).
Qed.

(** On values that are not NaN the comparisons are those of the places. *)
Lemma numbers_compare (a b : float) :
  is_nan a = false -> is_nan b = false ->
  exists c, SFcompare (Prim2SF a) (Prim2SF b) = Some c.
Proof.
  intros Ha Hb. apply is_nan_Prim2SF in Ha. apply is_nan_Prim2SF in Hb.
  destruct (SFcompare (Prim2SF a) (Prim2SF b)) as [c|] eqn:E.
  - exists c. reflexivity.
  - apply SFcompare_None in E. tauto.
Qed.

Lemma place_ltb (a b : float) :
  is_nan a = false -> is_nan b = false ->
  place_lt (place a) (place b) -> (a <? b) = true.
Proof.
  intros Ha Hb Hlt. destruct (numbers_compare a b Ha Hb) as [c E].
  rewrite FloatAxioms.ltb_spec. unfold SFltb. rewrite E.
  pose proof (SFcompare_place _ _ E) as Hc. unfold place in Hlt.
  destruct c; [|reflexivity|].
  - exfalso. apply (place_lt_irrefl Hlt). exact Hc.
  - exfalso. apply (place_lt_asym Hlt). exact Hc.
Qed.

Lemma place_eqb (a b : float) :
  is_nan a = false -> is_nan b = false ->
  place a = place b -> (a =? b) = true.
Proof.
  intros Ha Hb Heq. destruct (numbers_compare a b Ha Hb) as [c E].
  rewrite FloatAxioms.eqb_spec. unfold SFeqb. rewrite E.
  pose proof (SFcompare_place _ _ E) as Hc. unfold place in Heq.
  destruct c; [reflexivity| |].
  - exfalso. apply (place_lt_irrefl Hc). exact Heq.
  - exfalso. apply (place_lt_irrefl Hc). symmetry. exact Heq.
Qed.

Lemma place_leb (a b : float) :
  is_nan a = false -> is_nan b = false ->
  place_lt (place a) (place b) \/ place a = place b -> (a <=? b) = true.
Proof.
  intros Ha Hb [H|H].
  - apply ltb_leb. apply place_ltb; assumption.
  - apply eqb_leb. apply place_eqb; assumption.
Qed.

End FloatOrder.

(** ** The elicited-score parser *)

Section ElicitedScore.

Local Open Scope float_scope.

Lemma first_float_skips (pre : list string) (tok : string) (post : list string) :
  Forall (fun c => Py.float c = None) pre ->
  Llama.first_float (pre ++ tok :: post) =
    match Py.float tok with
    | Some v => Some v
    | None => Llama.first_float post
    end.
Proof.
  induction 1 as [|c pre Hc _ IH]; simpl.
  - reflexivity.
  - rewrite Hc. exact IH.
Qed.

Lemma first_float_none (chunks : list string) :
  Forall (fun c => Py.float c = None) chunks ->
  Llama.first_float chunks = None.
Proof.
  induction 1 as [|c chunks Hc _ IH]; simpl.
  - reflexivity.
  - rewrite Hc. exact IH.
Qed.

(** The clip of lines 101-102 lands in [0, 5] whatever it is given, NaN
    and the infinities included. *)
Lemma clip_in_range (x : float) :
  let r := Py.max 0 (Py.min 5 x) in
  (0 <=? r) = true /\ (r <=? 5) = true.
Proof.
  unfold Py.max, Py.min.
  destruct (x <? 5) eqn:H5.
  - destruct (0 <? x) eqn:H0.
    + split; apply ltb_leb; assumption.
    + split; reflexivity.
  - split; reflexivity.
Qed.

(** C1.  The parser of [get_llm_similarity_ollama] returns the first
    whitespace-separated chunk of the response that [float] accepts,
    multiplied by 5 and clipped; the score it returns lies in [0, 5];
    the response "0.8 (high similarity)" gives 4.0, and a response
    without a parseable chunk ("very similar") gives no score at all
    ([None]), not the score 0. *)
Theorem score_of_output_first_float_scaled_clipped (output : string) :
  (forall pre tok post v,
      Py.split output = pre ++ tok :: post ->
      Forall (fun c => Py.float c = None) pre ->
      Py.float tok = Some v ->
      Llama.score_of_output output = Some (Py.max 0 (Py.min 5 (v * 5))))
  /\ (Forall (fun c => Py.float c = None) (Py.split output) ->
      Llama.score_of_output output = None)
  /\ (forall r, Llama.score_of_output output = Some r ->
                (0 <=? r) = true /\ (r <=? 5) = true)
  /\ Py.split "0.8 (high similarity)" = ["0.8"; "(high"; "similarity)"]%string
  /\ Py.float "0.8" = Some 0x1.999999999999ap-1    (* the double 0.8 *)
  /\ Llama.score_of_output "0.8 (high similarity)" = Some 4
  /\ Llama.score_of_output "very similar" = None
  /\ Llama.score_of_output "very similar" <> Some 0.
Proof.
  split; [|split; [|split; [|split; [|split; [|split; [|split]]]]]].
  - intros pre tok post v Hsplit Hpre Htok. unfold Llama.score_of_output.
    rewrite Hsplit, (first_float_skips tok post Hpre), Htok. reflexivity.
  - intros Hall. unfold Llama.score_of_output.
    rewrite (first_float_none Hall). reflexivity.
  - intros r H. unfold Llama.score_of_output in H.
    destruct (Llama.first_float (Py.split output)); [|discriminate H].
    injection H as <-. apply clip_in_range.
  - vm_compute. reflexivity.
  - vm_compute. reflexivity.
  - vm_compute. reflexivity.
  - vm_compute. reflexivity.
  - vm_compute. discriminate.
Qed.

End ElicitedScore.

(** ** The dataset loader *)

Section Loader.

Lemma fold_rows body (Hbody : keeps_accepted_rows body) (reader : list row) :
  forall i st,
    let st' := snd (fold_left (fun '(row_idx, st) r => (S row_idx, body st row_idx r))
                      reader (i, st)) in
    sents1 st' = sents1 st ++ map (fun r => field r 5) (filter accepted reader)
    /\ sents2 st' = sents2 st ++ map (fun r => field r 6) (filter accepted reader)
    /\ scores st' = scores st ++ map ground_truth (filter accepted reader).
Proof.
  induction reader as [|r reader IH]; intros i st; simpl.
  - rewrite !app_nil_r. auto.
  - destruct (IH (S i) (body st i r)) as (H1 & H2 & H3).
    destruct (Hbody st i r) as (B1 & B2 & B3).
    cbv zeta in H1, H2, H3. rewrite H1, H2, H3, B1, B2, B3.
    destruct (accepted r); simpl; rewrite <- !app_assoc; auto.
Qed.

Lemma for_rows_records body (Hbody : keeps_accepted_rows body) (reader : list row) :
  let st := for_rows body reader in
  (sents1 st, sents2 st, scores st) = records_of reader.
Proof.
  unfold for_rows, records_of.
  destruct (fold_rows Hbody reader 0 loader_start) as (H1 & H2 & H3).
  cbv zeta in *. rewrite H1, H2, H3. reflexivity.
Qed.

Lemma predictor_load_row_keeps : keeps_accepted_rows Predictor.load_row.
Proof.
  intros st i r. unfold Predictor.load_row, accepted, ground_truth.
  destruct r as [|f r']; [simpl; rewrite !app_nil_r; auto|].
  set (row := f :: r').
  rewrite Nat.leb_antisym.
  destruct (List.length row <? 7) eqn:Hlen; simpl.
  - rewrite !app_nil_r. auto.
  - destruct (Py.float (field row 4)); simpl; rewrite ?app_nil_r; auto.
Qed.

Lemma syntactic_load_row_keeps : keeps_accepted_rows Syntactic.load_row.
Proof.
  intros st i r. unfold Syntactic.load_row, accepted, ground_truth.
  rewrite Nat.leb_antisym.
  destruct (List.length r <? 7) eqn:Hlen; simpl.
  - rewrite !app_nil_r. auto.
  - destruct (Py.float (field r 4)); simpl; rewrite ?app_nil_r; auto.
Qed.

Lemma accepted_iff (r : row) :
  accepted r = true <->
  7 <= List.length r /\ exists v, Py.float (field r 4) = Some v.
Proof.
  unfold accepted. rewrite andb_true_iff, Nat.leb_le.
  destruct (Py.float (field r 4)) as [v|]; split; intros [H1 H2]; split;
    try assumption; try reflexivity; try (exists v; reflexivity);
    try discriminate H2.
  destruct H2 as [v H2]. discriminate H2.
Qed.

(** C2.  Both loaders return the sentences and the score of the rows that
    have at least 7 fields and a field 4 that [float] accepts, and of no
    other row, in the order of the file: a short row or a row whose
    field 4 does not parse is passed over and the load goes on; the text
    of fields 5 and 6 plays no part in the choice. *)
Theorem loader_keeps_exactly_accepted_rows (reader : list row) :
  Predictor.load_sts_data_csv reader = records_of reader
  /\ Syntactic.load_sts_data_tsv reader = records_of reader
  /\ (forall r, In r (filter accepted reader) <->
                In r reader /\ 7 <= List.length r
                /\ exists v, Py.float (field r 4) = Some v)
  /\ (forall r, accepted r = false -> forall before after,
        records_of (before ++ r :: after) = records_of (before ++ after))
  /\ (forall f0 f1 f2 f3 f4 s5 s6 rest,
        accepted (f0 :: f1 :: f2 :: f3 :: f4 :: s5 :: s6 :: rest)
        = accepted (f0 :: f1 :: f2 :: f3 :: f4 :: EmptyString :: EmptyString :: rest)).
Proof.
  split; [|split; [|split; [|split]]].
  - apply (for_rows_records predictor_load_row_keeps).
  - apply (for_rows_records syntactic_load_row_keeps).
  - intros r. rewrite filter_In, accepted_iff. tauto.
  - intros r Hr before after. unfold records_of.
    rewrite !filter_app. simpl. rewrite Hr. reflexivity.
  - intros. reflexivity.
Qed.

(** C6.  The three lists the loader returns have the same length, and
    their i-th elements are fields 5 and 6 and the parsed field 4 of one
    and the same row of the file, the i-th of the rows it accepts. *)
Theorem loaded_sequences_aligned (reader : list row) :
  let '(s1, s2, gt) := Predictor.load_sts_data_csv reader in
  List.length s1 = List.length s2 /\ List.length s2 = List.length gt
  /\ forall i a b c,
       nth_error s1 i = Some a -> nth_error s2 i = Some b ->
       nth_error gt i = Some c ->
       exists r, nth_error (filter accepted reader) i = Some r
                 /\ In r reader /\ 7 <= List.length r
                 /\ a = field r 5 /\ b = field r 6
                 /\ Py.float (field r 4) = Some c.
Proof.
  pose proof (for_rows_records predictor_load_row_keeps reader) as H.
  unfold Predictor.load_sts_data_csv. cbv zeta in H |- *.
  unfold records_of in H. injection H as -> -> ->. rewrite !length_map.
  split; [reflexivity|split; [reflexivity|]].
  intros i a b c Ha Hb Hc.
  rewrite nth_error_map in Ha, Hb, Hc.
  destruct (nth_error (filter accepted reader) i) as [r|] eqn:Hr;
    [|discriminate Ha].
  simpl in Ha, Hb, Hc. injection Ha as <-. injection Hb as <-. injection Hc as <-.
  apply nth_error_In in Hr as Hin. apply filter_In in Hin as [Hin Hacc].
  apply accepted_iff in Hacc as [Hlen [v Hv]].
  exists r. repeat split; auto.
  unfold ground_truth. rewrite Hv. reflexivity.
Qed.

End Loader.

(** ** The fallback score of the elicited scorer *)

Section Fallback.

Variable World : Type.
Variable chat : string -> World -> Llama.chat_outcome * World.

Local Abbreviation step := (Llama.pred_raw_step chat).

Lemma pred_raw_loop_acc (pairs : list (string * string)) :
  forall acc w,
    fold_left step pairs (acc, w) =
    (acc ++ fst (fold_left step pairs ([], w)),
     snd (fold_left step pairs ([], w))).
Proof.
  induction pairs as [|p pairs IH]; intros acc w; simpl.
  - rewrite app_nil_r. reflexivity.
  - destruct (Llama.get_llm_similarity_ollama chat (fst p) (snd p) w)
      as [val w'].
    rewrite IH. rewrite (IH [_] w'). simpl.
    rewrite <- app_assoc. reflexivity.
Qed.

Lemma pred_raw_loop_length (pairs : list (string * string)) :
  forall w, List.length (fst (fold_left step pairs ([], w))) = List.length pairs.
Proof.
  induction pairs as [|p pairs IH]; intros w; simpl.
  - reflexivity.
  - destruct (Llama.get_llm_similarity_ollama chat (fst p) (snd p) w)
      as [val w'].
    rewrite pred_raw_loop_acc. simpl. rewrite IH. reflexivity.
Qed.

Lemma pred_raw_loop_nth (pairs : list (string * string)) :
  forall w i p,
    nth_error pairs i = Some p ->
    nth_error (fst (fold_left step pairs ([], w))) i =
    Some match fst (Llama.get_llm_similarity_ollama chat (fst p) (snd p)
                      (world_at chat pairs w i)) with
         | None => 2.5%float
         | Some v => v
         end.
Proof.
  induction pairs as [|p0 pairs IH]; intros w i p Hp.
  - destruct i; discriminate Hp.
  - unfold world_at. destruct i as [|i]; simpl in Hp |- *.
    + injection Hp as <-.
      destruct (Llama.get_llm_similarity_ollama chat (fst p0) (snd p0) w)
        as [val w'].
      rewrite pred_raw_loop_acc. reflexivity.
    + destruct (Llama.get_llm_similarity_ollama chat (fst p0) (snd p0) w)
        as [val w'].
      rewrite pred_raw_loop_acc. simpl.
      rewrite (pred_raw_loop_acc (firstn i pairs)). simpl.
      apply (IH w' i p Hp).
Qed.

Lemma failed_elicitation_is_None (sent1 sent2 : string) (w : World) :
  elicitation_fails (fst (chat (Llama.prompt_text sent1 sent2) w)) ->
  fst (Llama.get_llm_similarity_ollama chat sent1 sent2 w) = None.
Proof.
  unfold Llama.get_llm_similarity_ollama.
  destruct (chat (Llama.prompt_text sent1 sent2) w) as [[|output] w']; simpl.
  - reflexivity.
  - intros H. unfold Llama.score_of_output.
    rewrite (first_float_none H). reflexivity.
Qed.

(** C5.  When the call for pair number [i] raises, or replies with a text
    none of whose chunks reads as a float, the raw score of that pair is
    the fallback 2.5, and the loop still gives every pair a score. *)
Theorem failed_elicitation_scores_fallback
  (sents1 sents2 : list string) (w : World) (i : nat) (s1 s2 : string) :
  nth_error (combine sents1 sents2) i = Some (s1, s2) ->
  elicitation_fails
    (fst (chat (Llama.prompt_text s1 s2)
            (world_at chat (combine sents1 sents2) w i))) ->
  nth_error (fst (Llama.main_pred_raw chat sents1 sents2 w)) i = Some 2.5%float
  /\ List.length (fst (Llama.main_pred_raw chat sents1 sents2 w))
     = List.length (combine sents1 sents2).
Proof.
  intros Hp Hfail. unfold Llama.main_pred_raw. split.
  - rewrite (pred_raw_loop_nth _ w i Hp). simpl.
    rewrite (failed_elicitation_is_None _ _ _ Hfail). reflexivity.
  - apply pred_raw_loop_length.
Qed.

End Fallback.

Lemma failed_elicitation_scores_fallback_witness :
  nth_error (fst (Llama.main_pred_raw moody_chat
                    ["a cat sat"; "a dog ran"]%string
                    ["a cat sat"; "a cat sat"]%string 0)) 1 = Some 2.5%float
  /\ List.length (fst (Llama.main_pred_raw moody_chat
                    ["a cat sat"; "a dog ran"]%string
                    ["a cat sat"; "a cat sat"]%string 0)) = 2.
Proof.
  apply (@failed_elicitation_scores_fallback nat moody_chat
           ["a cat sat"; "a dog ran"]%string ["a cat sat"; "a cat sat"]%string
           0 1 "a dog ran" "a cat sat").
  - reflexivity.
  - vm_compute. repeat constructor.
Defined.

(** ** The sorted series *)

Section SortedSeries.

Variables (A K : Type) (key : A -> K) (lt : K -> K -> bool).

Lemma insert_Permutation (x : A) (l : list A) :
  Permutation (Py.insert key lt x l) (x :: l).
Proof.
  induction l as [|y l IH]; simpl.
  - apply Permutation_refl.
  - destruct (lt (key y) (key x)).
    + apply perm_trans with (y :: x :: l).
      * apply perm_skip. exact IH.
      * apply perm_swap.
    + apply Permutation_refl.
Qed.

Lemma sorted_Permutation (l : list A) : Permutation (Py.sorted key lt l) l.
Proof.
  induction l as [|x l IH]; simpl.
  - apply perm_nil.
  - apply perm_trans with (x :: Py.sorted key lt l).
    + apply insert_Permutation.
    + apply perm_skip. exact IH.
Qed.

(** [R] is an order the comparison decides on the elements that satisfy
    [P]. *)
Variables (P : A -> Prop) (R : A -> A -> Prop).
Hypothesis lt_R : forall a b, P a -> P b -> lt (key a) (key b) = true -> R a b.
Hypothesis not_lt_R : forall a b, P a -> P b -> lt (key a) (key b) = false -> R b a.

Lemma insert_HdRel (a x : A) (l : list A) :
  R a x -> HdRel R a l -> HdRel R a (Py.insert key lt x l).
Proof.
  intros Hax Hl. destruct l as [|y l]; simpl.
  - constructor. exact Hax.
  - destruct (lt (key y) (key x)); constructor.
    + inversion Hl; assumption.
    + exact Hax.
Qed.

Lemma insert_Sorted (x : A) (l : list A) :
  P x -> Forall P l -> Sorted R l -> Sorted R (Py.insert key lt x l).
Proof.
  intros Hx HP Hs. induction l as [|y l IH]; simpl.
  - repeat constructor.
  - inversion HP as [|? ? Hy HPl]; subst. inversion Hs as [|? ? Hsl Hhd]; subst.
    destruct (lt (key y) (key x)) eqn:E.
    + constructor.
      * apply IH; assumption.
      * apply insert_HdRel; [apply lt_R; assumption | assumption].
    + constructor; [assumption|]. constructor. apply not_lt_R; assumption.
Qed.

Lemma sorted_Sorted (l : list A) :
  Forall P l -> Sorted R (Py.sorted key lt l).
Proof.
  induction 1 as [|x l Hx Hl IH]; simpl.
  - constructor.
  - apply insert_Sorted; [exact Hx| |exact IH].
    apply (@Permutation_Forall _ P l); [|exact Hl].
    apply Permutation_sym, sorted_Permutation.
Qed.

End SortedSeries.

Lemma tuple_lt_lex_le (a b : float * float) :
  Py.tuple_lt a b = true -> lex_le a b.
Proof.
  unfold Py.tuple_lt, lex_le.
  destruct (fst a =? fst b)%float eqn:E1.
  - destruct (snd a =? snd b)%float; [discriminate|].
    intros H. right. split; [reflexivity|apply ltb_leb; exact H].
  - intros H. left. exact H.
Qed.

Lemma not_tuple_lt_lex_le (a b : float * float) :
  is_numeric a -> is_numeric b -> Py.tuple_lt a b = false -> lex_le b a.
Proof.
  intros [Ha1 Ha2] [Hb1 Hb2]. unfold Py.tuple_lt, lex_le.
  rewrite (eqb_sym (fst b) (fst a)).
  destruct (fst a =? fst b)%float eqn:E1.
  - destruct (snd a =? snd b)%float eqn:E2; intros H; right; split;
      try reflexivity.
    + apply eqb_leb. rewrite eqb_sym. exact E2.
    + apply not_ltb_leb; assumption.
  - intros H. left. apply not_ltb_not_eqb_ltb; assumption.
Qed.

Lemma lex_le_trans (a b c : float * float) :
  is_numeric a -> is_numeric b -> is_numeric c ->
  lex_le a b -> lex_le b c -> lex_le a c.
Proof.
  intros [Ha1 Ha2] [Hb1 Hb2] [Hc1 Hc2]. unfold lex_le.
  intros [Hab|[Hab Hab']] [Hbc|[Hbc Hbc']].
  - left. apply place_ltb; try assumption.
    apply (place_lt_trans (ltb_place Hab) (ltb_place Hbc)).
  - left. apply place_ltb; try assumption.
    rewrite <- (eqb_place Hbc). apply ltb_place. exact Hab.
  - left. apply place_ltb; try assumption.
    rewrite (eqb_place Hab). apply ltb_place. exact Hbc.
  - right. split.
    + apply place_eqb; try assumption.
      rewrite (eqb_place Hab). apply eqb_place. exact Hbc.
    + apply place_leb; try assumption.
      destruct (leb_place Hab') as [H1|H1], (leb_place Hbc') as [H2|H2].
      * left. apply (place_lt_trans H1 H2).
      * left. rewrite <- H2. exact H1.
      * left. rewrite H1. exact H2.
      * right. rewrite H1. exact H2.
Qed.

(** A list sorted step by step is sorted throughout when the order is
    transitive on its elements. *)
Lemma Sorted_StronglySorted_on {T : Type} (P : T -> Prop) (R : T -> T -> Prop)
  (l : list T) :
  (forall a b c, P a -> P b -> P c -> R a b -> R b c -> R a c) ->
  Forall P l -> Sorted R l -> StronglySorted R l.
Proof.
  intros Htrans HP Hs. induction l as [|a l IH].
  - constructor.
  - inversion HP as [|? ? Ha HPl]; subst. inversion Hs as [|? ? Hsl Hhd]; subst.
    specialize (IH HPl Hsl). constructor; [exact IH|].
    destruct l as [|b l]; [constructor|].
    inversion Hhd as [|? ? Hab]; subst.
    inversion IH as [|? ? _ Hbl]; subst.
    inversion HPl as [|? ? Hb HPl']; subst.
    constructor; [exact Hab|].
    rewrite Forall_forall in *. intros c Hc.
    apply (Htrans a b c); auto.
Qed.

Lemma combine_numeric (preds gt : list float) :
  (forall x, In x preds -> is_nan x = false) ->
  (forall y, In y gt -> is_nan y = false) ->
  Forall is_numeric (combine preds gt).
Proof.
  intros Hp Hg. apply Forall_forall. intros [x y] Hin. split; simpl.
  - apply Hp. apply (in_combine_l _ _ _ _ Hin).
  - apply Hg. apply (in_combine_r _ _ _ _ Hin).
Qed.

Lemma main_data_Sorted (preds gt : list float) :
  Forall is_numeric (combine preds gt) ->
  Sorted lex_le (Predictor.main_data preds gt).
Proof.
  intros H. unfold Predictor.main_data.
  apply sorted_Sorted with (P := is_numeric).
  - intros a b _ _. apply tuple_lt_lex_le.
  - intros a b Ha Hb. apply not_tuple_lt_lex_le; assumption.
  - exact H.
Qed.

(** C7, as amended.  When no prediction and no ground truth is NaN, the
    series handed to the plot is a rearrangement of the (prediction, ground
    truth) pairs in which every pair is followed only by pairs with a larger
    prediction, or with an equal prediction and a ground truth at least as
    large; it is a function of the two sequences alone. *)
Theorem main_data_sorted_permutation (preds gt : list float) :
  List.length preds = List.length gt ->
  (forall x, In x preds -> is_nan x = false) ->
  (forall y, In y gt -> is_nan y = false) ->
  Permutation (Predictor.main_data preds gt) (combine preds gt)
  /\ List.length (Predictor.main_data preds gt) = List.length preds
  /\ Sorted lex_le (Predictor.main_data preds gt)
  /\ StronglySorted lex_le (Predictor.main_data preds gt)
  /\ (forall preds' gt', preds' = preds -> gt' = gt ->
        Predictor.main_data preds' gt' = Predictor.main_data preds gt).
Proof.
  intros Hlen Hp Hg.
  pose proof (combine_numeric preds gt Hp Hg) as Hnum.
  assert (Permutation (Predictor.main_data preds gt) (combine preds gt)) as Hperm
    by apply sorted_Permutation.
  split; [exact Hperm|split; [|split; [|split]]].
  - rewrite (Permutation_length Hperm).
    rewrite length_combine, <- Hlen. apply Nat.min_id.
  - apply main_data_Sorted. exact Hnum.
  - apply Sorted_StronglySorted_on with (P := is_numeric).
    + apply lex_le_trans.
    + apply (@Permutation_Forall _ is_numeric (combine preds gt)); [|exact Hnum].
      apply Permutation_sym. exact Hperm.
    + apply main_data_Sorted. exact Hnum.
  - intros preds' gt' -> ->. reflexivity.
Qed.

Lemma main_data_sorted_permutation_witness :
  let preds := [3; 1; 2; 1]%float in
  let gt := [1; 2; 5; 0]%float in
  Permutation (Predictor.main_data preds gt) (combine preds gt)
  /\ List.length (Predictor.main_data preds gt) = 4
  /\ Sorted lex_le (Predictor.main_data preds gt)
  /\ StronglySorted lex_le (Predictor.main_data preds gt)
  /\ (forall preds' gt', preds' = preds -> gt' = gt ->
        Predictor.main_data preds' gt' = Predictor.main_data preds gt).
Proof.
  apply (@main_data_sorted_permutation [3; 1; 2; 1]%float [1; 2; 5; 0]%float).
  - reflexivity.
  - simpl. intros x [<-|[<-|[<-|[<-|[]]]]]; reflexivity.
  - simpl. intros x [<-|[<-|[<-|[<-|[]]]]]; reflexivity.
Defined.

(** C7, as the claim states it, fails.  The loader keeps a row whose score
    field reads "nan", since [float] accepts that text; with the two
    predictions equal, the pair holding the NaN stays in front of the pair
    with ground truth 0, and the series is not in ascending order.  No
    rearrangement of these two pairs is. *)
Lemma nan_ground_truth_leaves_series_unsorted :
  Predictor.load_sts_data_csv
    [ ["main-news"; "headlines"; "2015"; "0017"; "nan"; "A man."; "A boy."];
      ["main-news"; "headlines"; "2015"; "0018"; "0.000"; "A cat."; "A dog."]
    ]%string
  = (["A man."; "A cat."]%string, ["A boy."; "A dog."]%string, [nan; 0]%float)
  /\ Predictor.main_data [1; 1]%float [nan; 0]%float = [(1, nan); (1, 0)]%float
  /\ ~ Sorted lex_le (Predictor.main_data [1; 1]%float [nan; 0]%float)
  /\ ~ (exists l, Permutation l (combine [1; 1]%float [nan; 0]%float)
                  /\ Sorted lex_le l)
  /\ ~ (forall preds gt, List.length preds = List.length gt ->
          Permutation (Predictor.main_data preds gt) (combine preds gt)
          /\ Sorted lex_le (Predictor.main_data preds gt)).
Proof.
  assert (forall a b : float * float,
             (a = (1, nan)%float /\ b = (1, 0)%float)
             \/ (a = (1, 0)%float /\ b = (1, nan)%float) ->
             ~ Sorted lex_le [a; b]) as Hno.
  { intros a b Hab Hs.
    inversion Hs as [|? ? _ Hhd]; subst. inversion Hhd as [|? ? Hle]; subst.
    destruct Hab as [[-> ->]|[-> ->]]; destruct Hle as [H|[_ H]];
      vm_compute in H; discriminate. }
  assert (Predictor.main_data [1; 1]%float [nan; 0]%float
          = [(1, nan); (1, 0)]%float) as E by (vm_compute; reflexivity).
  split; [vm_compute; reflexivity|].
  split; [exact E|].
  split; [rewrite E; apply Hno; left; split; reflexivity|].
  split.
  - intros [l [Hperm Hs]]. simpl in Hperm.
    pose proof (Permutation_length Hperm) as Hlen.
    destruct l as [|a [|b [|? ?]]]; try discriminate.
    apply Permutation_sym in Hperm.
    apply Permutation_length_2_inv in Hperm.
    destruct Hperm as [Heq|Heq]; injection Heq as -> ->;
      apply (Hno _ _ (or_introl (conj eq_refl eq_refl)) Hs)
      || apply (Hno _ _ (or_intror (conj eq_refl eq_refl)) Hs).
  - intros H.
    destruct (H [1; 1]%float [nan; 0]%float eq_refl) as [_ Hs].
    rewrite E in Hs. apply (Hno _ _ (or_introl (conj eq_refl eq_refl)) Hs).
Qed.

(** ** The batched embedding scorer *)

Section Batching.

Variables (V S : Type).
Variable embed : string -> V.
Variable cosine_similarity : V -> V -> S.

Lemma encode_halves (sents1 sents2 : list string) :
  let all_embeddings := Semantic.encode embed (sents1 ++ sents2) in
  firstn (List.length sents1) all_embeddings = Semantic.encode embed sents1
  /\ skipn (List.length sents1) all_embeddings = Semantic.encode embed sents2.
Proof.
  unfold Semantic.encode. rewrite map_app.
  rewrite <- (length_map embed sents1). split.
  - rewrite firstn_app, Nat.sub_diag, firstn_all. simpl. apply app_nil_r.
  - rewrite skipn_app, Nat.sub_diag, skipn_all. reflexivity.
Qed.

Lemma firstn_snoc {T : Type} (l : list T) :
  forall k v, nth_error l k = Some v -> firstn (Datatypes.S k) l = firstn k l ++ [v].
Proof.
  induction l as [|x l IH]; intros [|k] v H; try discriminate H.
  - injection H as <-. reflexivity.
  - simpl in H |- *. rewrite <- (IH k v H). reflexivity.
Qed.

Lemma combine_snoc {T U : Type} (l1 : list T) :
  forall (l2 : list U) a b,
    List.length l1 = List.length l2 ->
    combine (l1 ++ [a]) (l2 ++ [b]) = combine l1 l2 ++ [(a, b)].
Proof.
  induction l1 as [|x l1 IH]; intros [|y l2] a b H; try discriminate H.
  - reflexivity.
  - simpl. rewrite IH; [reflexivity|]. injection H as H. exact H.
Qed.

(** The loop over [range(k)] on two arrays that are long enough. *)
Lemma pair_loop (e1 e2 : list V) (k : nat) :
  k <= List.length e1 -> k <= List.length e2 ->
  fold_left (Semantic.pair_step cosine_similarity e1 e2) (seq 0 k) (Py.Returns [])
  = Py.Returns (map (fun p => cosine_similarity (fst p) (snd p))
                  (combine (firstn k e1) (firstn k e2))).
Proof.
  induction k as [|k IH]; intros H1 H2.
  - reflexivity.
  - rewrite seq_S, fold_left_app, IH by lia.
    cbn [fold_left Nat.add]. unfold Semantic.pair_step at 1.
    destruct (nth_error e1 k) as [v1|] eqn:E1;
      [|apply nth_error_None in E1; lia].
    destruct (nth_error e2 k) as [v2|] eqn:E2;
      [|apply nth_error_None in E2; lia].
    rewrite (firstn_snoc e1 k E1), (firstn_snoc e2 k E2).
    rewrite combine_snoc by (rewrite !length_firstn; lia).
    rewrite map_app. reflexivity.
Qed.

Lemma combine_encoded (l1 : list string) :
  forall l2,
    map (fun p => cosine_similarity (fst p) (snd p))
      (combine (firstn (List.length l1) (Semantic.encode embed l1))
               (firstn (List.length l1) (Semantic.encode embed l2)))
    = map (fun p => cosine_similarity (embed (fst p)) (embed (snd p)))
        (combine l1 l2).
Proof.
  induction l1 as [|a l1 IH]; intros [|b l2]; simpl; try reflexivity.
  rewrite <- IH. reflexivity.
Qed.

Lemma semantic_similarities_value (sents1 sents2 : list string) :
  List.length sents1 <= List.length sents2 ->
  Semantic.compute_semantic_similarities embed cosine_similarity sents1 sents2
  = Py.Returns (map (fun p => cosine_similarity (embed (fst p)) (embed (snd p)))
                  (combine sents1 sents2)).
Proof.
  intros Hlen. unfold Semantic.compute_semantic_similarities.
  destruct (encode_halves sents1 sents2) as [-> ->].
  rewrite pair_loop by (unfold Semantic.encode; rewrite length_map; lia).
  rewrite combine_encoded. reflexivity.
Qed.

(** C10.  On two lists of the same length the batched computation returns
    one similarity per pair, the i-th being the cosine of the embedding of
    [sents1[i]] and the embedding of [sents2[i]]. *)
Theorem batched_similarities_aligned (sents1 sents2 : list string) :
  List.length sents1 = List.length sents2 ->
  exists sims,
    Semantic.compute_semantic_similarities embed cosine_similarity sents1 sents2
    = Py.Returns sims
    /\ List.length sims = List.length sents1
    /\ forall i s1 s2,
         nth_error sents1 i = Some s1 -> nth_error sents2 i = Some s2 ->
         nth_error sims i = Some (cosine_similarity (embed s1) (embed s2)).
Proof.
  intros Hlen. eexists. split; [|split].
  - apply semantic_similarities_value. lia.
  - rewrite length_map, length_combine, <- Hlen. apply Nat.min_id.
  - intros i s1 s2 H1 H2. rewrite nth_error_map.
    assert (nth_error (combine sents1 sents2) i = Some (s1, s2)) as ->;
      [|reflexivity].
    clear Hlen. revert sents2 i H1 H2.
    induction sents1 as [|a l IH]; intros [|b l2] [|i] H1 H2;
      try discriminate H1; try discriminate H2; simpl in *.
    + congruence.
    + apply IH; assumption.
Qed.

End Batching.

Lemma batched_similarities_aligned_witness :
  exists sims,
    Semantic.compute_semantic_similarities String.length Nat.eqb
      ["a cat sat"; "a cat sat"]%string ["a cat sat"; "a dog barked"]%string
    = Py.Returns sims
    /\ List.length sims = 2
    /\ forall i s1 s2,
         nth_error ["a cat sat"; "a cat sat"]%string i = Some s1 ->
         nth_error ["a cat sat"; "a dog barked"]%string i = Some s2 ->
         nth_error sims i = Some (Nat.eqb (String.length s1) (String.length s2)).
Proof.
  apply (@batched_similarities_aligned nat bool String.length Nat.eqb
           ["a cat sat"; "a cat sat"]%string ["a cat sat"; "a dog barked"]%string).
  reflexivity.
Defined.

(** ** The score dumps *)

Lemma string_app_nil_r (s : string) : (s ++ "")%string = s.
Proof. induction s as [|c s IH]; simpl; [reflexivity|rewrite IH; reflexivity]. Qed.

Lemma string_app_assoc (s t u : string) :
  ((s ++ t) ++ u)%string = (s ++ (t ++ u))%string.
Proof. induction s as [|c s IH]; simpl; [reflexivity|rewrite IH; reflexivity]. Qed.

Section ScoreDump.

Variable A : Type.
Variable str : A -> string.

Lemma lines_from_text (a : string) :
  forall cur rest,
    line_feed_free a = true ->
    lines_from cur (a ++ rest) = lines_from (cur ++ a) rest.
Proof.
  induction a as [|c a IH]; intros cur rest H; simpl in *.
  - rewrite string_app_nil_r. reflexivity.
  - apply andb_true_iff in H as [Hc Ha]. apply negb_true_iff in Hc.
    rewrite Hc, (IH _ _ Ha), string_app_assoc. reflexivity.
Qed.

Lemma dump_loop (sep : string) (scores : list A) :
  forall f,
    fold_left (fun f s => f ++ (str s ++ sep))%string scores f
    = (f ++ fold_right (fun s r => str s ++ sep ++ r) EmptyString scores)%string.
Proof.
  induction scores as [|s scores IH]; intros f; simpl.
  - rewrite string_app_nil_r. reflexivity.
  - rewrite IH, !string_app_assoc. reflexivity.
Qed.

Lemma lines_of_terminated (scores : list A) :
  Forall (fun s => line_feed_free (str s) = true) scores ->
  lines (fold_right (fun s r => str s ++ nl ++ r)%string EmptyString scores)
  = map str scores.
Proof.
  unfold lines. induction 1 as [|s scores Hs _ IH].
  - reflexivity.
  - cbn [fold_right map]. rewrite (lines_from_text _ _ _ Hs).
    change (lines_from (EmptyString ++ str s) (nl ++ ?r))
      with (str s :: lines_from EmptyString r).
    rewrite IH. reflexivity.
Qed.

(** The writers of [predictor.py], [syntactic.py] and [semantic.py] leave a
    file with one line per score, each holding the text of that score. *)
Lemma sibling_dump_one_score_per_line (scores : list A) (path : string)
  (fs : filesystem) :
  Forall (fun s => line_feed_free (str s) = true) scores ->
  exists text,
    Predictor.save_scores_to_file str scores path fs path = Some text
    /\ Syntactic.save_scores_to_file str scores path fs path = Some text
    /\ lines text = map str scores.
Proof.
  intros H. eexists. unfold Predictor.save_scores_to_file,
    Syntactic.save_scores_to_file, store. rewrite String.eqb_refl.
  split; [reflexivity|split; [reflexivity|]].
  rewrite dump_loop. simpl. apply lines_of_terminated. exact H.
Qed.

Lemma concat_loop (scores : list A) :
  forall f,
    fold_left (fun f s => f ++ str s)%string scores f
    = (f ++ fold_right (fun s r => str s ++ r) EmptyString scores)%string.
Proof.
  induction scores as [|s scores IH]; intros f; simpl.
  - rewrite string_app_nil_r. reflexivity.
  - rewrite IH, string_app_assoc. reflexivity.
Qed.

Lemma llama_dump_text (scores : list A) (path : string) (fs : filesystem) :
  Llama.save_scores_to_file str scores path fs path
  = Some (fold_right (fun s r => str s ++ r)%string EmptyString scores).
Proof.
  unfold Llama.save_scores_to_file, store.
  rewrite String.eqb_refl, concat_loop. reflexivity.
Qed.

(** Without a line feed in the text of a score there is none in the file:
    whatever the number of scores, the file of [llama_predictor.py] holds at
    most one line. *)
Lemma llama_dump_single_line (scores : list A) (path : string)
  (fs : filesystem) :
  Forall (fun s => line_feed_free (str s) = true) scores ->
  exists text,
    Llama.save_scores_to_file str scores path fs path = Some text
    /\ List.length (lines text) <= 1.
Proof.
  intros H. eexists. split; [apply llama_dump_text|].
  unfold lines.
  enough (forall cur,
             List.length
               (lines_from cur
                  (fold_right (fun s r => str s ++ r)%string EmptyString scores))
             <= 1) as Hcur by apply Hcur.
  induction H as [|s scores Hs _ IH]; intros cur; simpl.
  - destruct cur; simpl; lia.
  - rewrite (lines_from_text _ _ _ Hs). apply IH.
Qed.

End ScoreDump.

(** C9 (the code departs from the claim).  On the scores 2.5 and 4.0 the
    writer of [llama_predictor.py] stores the two texts run together, where
    the writer of [predictor.py] stores one line for each. *)
Theorem llama_dump_runs_scores_together (str : float -> string)
  (path : string) (fs : filesystem) :
  Llama.save_scores_to_file str [2.5; 4]%float path fs path
  = Some (str 2.5 ++ str 4)%string%float
  /\ Predictor.save_scores_to_file str [2.5; 4]%float path fs path
     = Some (str 2.5 ++ nl ++ str 4 ++ nl)%string%float.
Proof.
  split.
  - rewrite llama_dump_text. cbn [fold_right].
    rewrite string_app_nil_r. reflexivity.
  - unfold Predictor.save_scores_to_file, store.
    rewrite String.eqb_refl, dump_loop. reflexivity.
Qed.

(** ** The correlation of a constant sequence *)

Section Correlation.

Variable coefficient : list float -> list float -> float.

Lemma pearsonr_constant (x y : list float) :
  List.length x = List.length y -> 2 <= List.length x ->
  Scipy.is_constant x = true \/ Scipy.is_constant y = true ->
  Scipy.pearsonr coefficient x y = Py.Returns nan.
Proof.
  intros Hlen Hn Hconst. unfold Scipy.pearsonr.
  rewrite <- Hlen, Nat.eqb_refl. simpl.
  replace (List.length x <? 2) with false
    by (symmetry; apply Nat.ltb_ge; exact Hn).
  replace (Scipy.is_constant x || Scipy.is_constant y) with true
    by (symmetry; apply orb_true_iff; exact Hconst).
  reflexivity.
Qed.

(** C4, as the code has it.  When the predictions or the ground truth are
    constant (equal lengths, at least 2), the correlation step neither
    raises nor marks the result as undefined: it keeps the NaN the library
    returns in [pearson_corr] and prints it as the number text "nan". *)
Theorem constant_input_passes_nan_through (preds gt : list float) :
  List.length preds = List.length gt -> 2 <= List.length preds ->
  Scipy.is_constant preds = true \/ Scipy.is_constant gt = true ->
  Predictor.main_evaluate coefficient preds gt
  = Py.Returns (nan, "Pearson Correlation (Test) = nan"%string)
  /\ hands_on_a_float (Predictor.main_evaluate coefficient preds gt).
Proof.
  intros Hlen Hn Hconst.
  assert (Predictor.main_evaluate coefficient preds gt
          = Py.Returns (nan, "Pearson Correlation (Test) = nan"%string)) as E.
  { unfold Predictor.main_evaluate.
    rewrite (pearsonr_constant _ _ Hlen Hn Hconst). reflexivity. }
  split; [exact E|]. rewrite E. eexists _, _. reflexivity.
Qed.

End Correlation.

Lemma constant_input_passes_nan_through_witness :
  Predictor.main_evaluate (fun _ _ => 0%float) [1; 1]%float [1; 2]%float
  = Py.Returns (nan, "Pearson Correlation (Test) = nan"%string)
  /\ hands_on_a_float
       (Predictor.main_evaluate (fun _ _ => 0%float) [1; 1]%float [1; 2]%float).
Proof.
  apply (@constant_input_passes_nan_through (fun _ _ => 0%float)
           [1; 1]%float [1; 2]%float).
  - reflexivity.
  - simpl. lia.
  - left. reflexivity.
Defined.

(** C4, as the claim states it, fails: on the constant predictions [1, 1]
    against the ground truth [1, 2] the step hands on NaN as the
    correlation and prints "nan"; so it is not true that a constant input
    is never handed on as a float. *)
Lemma constant_predictions_not_reported_undefined :
  Predictor.main_evaluate (fun _ _ => 0%float) [1; 1]%float [1; 2]%float
  = Py.Returns (nan, "Pearson Correlation (Test) = nan"%string)
  /\ ~ (forall coefficient preds gt,
          List.length preds = List.length gt -> 2 <= List.length preds ->
          Scipy.is_constant preds = true \/ Scipy.is_constant gt = true ->
          ~ hands_on_a_float (Predictor.main_evaluate coefficient preds gt)).
Proof.
  split; [reflexivity|].
  intros H.
  apply (H (fun _ _ => 0%float) [1; 1]%float [1; 2]%float);
    [reflexivity | simpl; lia | left; reflexivity |].
  eexists _, _. reflexivity.
Qed.

(** ** Products of rows *)

Section RowProducts.

Local Open Scope R_scope.

Lemma dot_cons (x y : R) (u v : list R) :
  Sklearn.dot (x :: u) (y :: v) = x * y + Sklearn.dot u v.
Proof. reflexivity. Qed.

Lemma dot_self_nonneg (v : list R) : 0 <= Sklearn.dot v v.
Proof.
  induction v as [|x v IH].
  - unfold Sklearn.dot. simpl. lra.
  - rewrite dot_cons. pose proof (Rle_0_sqr x) as Hx. unfold Rsqr in Hx. lra.
Qed.

Lemma dot_zero_l (u v : list R) :
  (forall x, In x u -> x = 0) -> Sklearn.dot u v = 0.
Proof.
  revert v. induction u as [|x u IH]; intros v H.
  - reflexivity.
  - destruct v as [|y v]; [reflexivity|].
    change (Sklearn.dot (x :: u) (y :: v)) with (x * y + Sklearn.dot u v).
    rewrite IH by (intros w Hw; apply H; right; exact Hw).
    rewrite (H x (or_introl eq_refl)). ring.
Qed.

End RowProducts.

(** ** Calibration on a constant column *)

Section Calibration.

Local Open Scope float_scope.

(** A finite value is a zero or has a mantissa and an exponent. *)
Lemma is_finite_Prim2SF (c : float) :
  is_finite c = true ->
  (exists s, Prim2SF c = S754_zero s)
  \/ (exists s m e, Prim2SF c = S754_finite s m e).
Proof.
  unfold is_finite, is_nan, is_infinity.
  rewrite !FloatAxioms.eqb_spec, FloatAxioms.abs_spec.
  change (Prim2SF infinity) with (S754_infinity false).
  destruct (Prim2SF c) as [s|s| |s m e]; intros H.
  - left. exists s. reflexivity.
  - destruct s; discriminate H.
  - discriminate H.
  - right. exists s, m, e. reflexivity.
Qed.

(** Centring a finite value on itself gives +0. *)
Lemma sub_self (c : float) : is_finite c = true -> c - c = 0.
Proof.
  intros H. apply FloatAxioms.Prim2SF_inj. rewrite FloatAxioms.sub_spec.
  change (Prim2SF 0) with (S754_zero false).
  destruct (is_finite_Prim2SF c H) as [[s ->]|[s [m [e ->]]]].
  - destruct s; reflexivity.
  - unfold SF64sub, SFsub. cbv zeta. rewrite Z.min_id.
    unfold shl_align. rewrite Z.sub_diag. cbn [fst].
    reflexivity.
Qed.

(** A finite value times the zero slope is a zero, of either sign. *)
Lemma mul_zero_r (c : float) :
  is_finite c = true -> exists s, Prim2SF (c * 0) = S754_zero s.
Proof.
  intros H. rewrite FloatAxioms.mul_spec.
  change (Prim2SF 0) with (S754_zero false).
  destruct (is_finite_Prim2SF c H) as [[s ->]|[s [m [e ->]]]]; simpl; eauto.
Qed.

(** Subtracting a zero leaves a value as it is, but for the sign of a
    zero: [-0 - -0] is [+0]. *)
Lemma sub_zero_r (a z : float) (s : bool) :
  Prim2SF z = S754_zero s ->
  a - z = a \/ (a - z = 0 /\ a = (-0)%float).
Proof.
  intros Hz.
  destruct (Prim2SF a) as [sa|sa| |sa ma ea] eqn:Ea.
  - destruct sa, s.
    + right. split; apply FloatAxioms.Prim2SF_inj;
        [rewrite FloatAxioms.sub_spec, Hz, Ea|rewrite Ea]; reflexivity.
    + left. apply FloatAxioms.Prim2SF_inj.
      rewrite FloatAxioms.sub_spec, Hz, Ea. reflexivity.
    + left. apply FloatAxioms.Prim2SF_inj.
      rewrite FloatAxioms.sub_spec, Hz, Ea. reflexivity.
    + left. apply FloatAxioms.Prim2SF_inj.
      rewrite FloatAxioms.sub_spec, Hz, Ea. reflexivity.
  - left. apply FloatAxioms.Prim2SF_inj.
    rewrite FloatAxioms.sub_spec, Hz, Ea. destruct sa; reflexivity.
  - left. apply FloatAxioms.Prim2SF_inj.
    rewrite FloatAxioms.sub_spec, Hz, Ea. reflexivity.
  - left. apply FloatAxioms.Prim2SF_inj.
    rewrite FloatAxioms.sub_spec, Hz, Ea. reflexivity.
Qed.

Lemma all_finite_forall (l : list float) :
  (forall v, In v l -> is_finite v = true) -> Sklearn.all_finite l = true.
Proof. intros H. apply forallb_forall. exact H. Qed.

(** A constant column centred on its own value is a column of +0. *)
Lemma centred_constant_column (X : list float) (c : float) :
  is_finite c = true -> (forall x, In x X -> x = c) ->
  map (fun v => v - c) X = map (fun _ => 0) X.
Proof.
  intros Hfin Hc. apply map_ext_in. intros x Hx.
  rewrite (Hc x Hx). apply sub_self. exact Hfin.
Qed.

Variable average : list float -> float.
Variable gelsd : list float -> list float -> float.

(** On a column of zeros the solver does not reach the decomposition. *)
Lemma lstsq_zero_column (T : Type) (X : list T) (y : list float) :
  Sklearn.all_finite y = true ->
  Sklearn.lstsq gelsd (map (fun _ => 0) X) y = Py.Returns 0.
Proof.
  intros Hy. unfold Sklearn.lstsq.
  assert (Sklearn.all_finite (map (fun _ : T => 0) X) = true) as ->.
  { apply all_finite_forall. intros v Hv.
    apply in_map_iff in Hv as [? [<- _]]. reflexivity. }
  rewrite Hy. cbn [andb negb].
  assert (forallb (fun v => v =? 0) (map (fun _ : T => 0) X) = true) as ->.
  { apply forallb_forall. intros v Hv.
    apply in_map_iff in Hv as [? [<- _]]. reflexivity. }
  reflexivity.
Qed.

(** C3, as amended.  On a training set of at least one pair whose raw
    scores are all one finite value, the floating-point average of that
    column being the value again, and whose ground truth is finite and
    stays finite when its average is subtracted, the fit returns a model
    (it does not raise): the slope is 0 and the intercept is the average
    of the ground truth (+0 where that average is -0). *)
Theorem constant_column_fit_is_fallback (X y : list float) (c : float) :
  (1 <= List.length X)%nat -> List.length X = List.length y ->
  (forall x, In x X -> x = c) -> is_finite c = true ->
  average X = c ->
  (forall v, In v y -> is_finite v = true) ->
  (forall v, In v y -> is_finite (v - average y) = true) ->
  exists m, Sklearn.fit average gelsd X y = Py.Returns m
    /\ Sklearn.coef_ m = 0
    /\ (Sklearn.intercept_ m = average y
        \/ (Sklearn.intercept_ m = 0 /\ average y = (-0)%float)).
Proof.
  intros Hn Hlen Hc Hfin Havg Hy Hyc.
  unfold Sklearn.fit.
  replace (List.length X =? 0)%nat with false
    by (symmetry; apply Nat.eqb_neq; lia).
  rewrite <- Hlen, Nat.eqb_refl. cbn [negb].
  rewrite (all_finite_forall X), (all_finite_forall y Hy);
    [|intros x Hx; rewrite (Hc x Hx); exact Hfin].
  cbn [andb negb]. cbv zeta. rewrite Havg.
  rewrite (centred_constant_column X Hfin Hc).
  rewrite lstsq_zero_column.
  - eexists. split; [reflexivity|]. split; [reflexivity|].
    cbn [Sklearn.intercept_].
    destruct (mul_zero_r c Hfin) as [s Hs].
    apply (sub_zero_r (average y) (c * 0) Hs).
  - apply all_finite_forall. intros v Hv.
    apply in_map_iff in Hv as [w [<- Hw]]. apply Hyc. exact Hw.
Qed.

End Calibration.

Lemma constant_column_fit_is_fallback_witness :
  exists m, Sklearn.fit straight_average (fun _ _ => nan)
              [2.5; 2.5; 2.5]%float [5; 0; 1]%float = Py.Returns m
    /\ Sklearn.coef_ m = 0%float
    /\ (Sklearn.intercept_ m = straight_average [5; 0; 1]%float
        \/ (Sklearn.intercept_ m = 0%float
            /\ straight_average [5; 0; 1]%float = (-0)%float)).
Proof.
  apply (@constant_column_fit_is_fallback straight_average (fun _ _ => nan)
           [2.5; 2.5; 2.5]%float [5; 0; 1]%float 2.5%float).
  - simpl. lia.
  - reflexivity.
  - simpl. intros x [<-|[<-|[<-|[]]]]; reflexivity.
  - reflexivity.
  - vm_compute. reflexivity.
  - simpl. intros v [<-|[<-|[<-|[]]]]; reflexivity.
  - simpl. intros v [<-|[<-|[<-|[]]]]; vm_compute; reflexivity.
Defined.

(** C3, as the claim states it, fails.  The scripts hand the columns to
    the library as they are.  A ground truth that reads "nan" is kept by
    the loader, and the estimator's validation then raises [ValueError]:
    the fit fails.  And being constant does not make a column zero once it
    is centred: the floating-point average of 0.1, 0.1, 0.1 is
    0.10000000000000002, each centred entry is [-0x1p-56], and the slope
    is what the decomposition returns for that column, whatever it is. *)
Lemma constant_column_fit_not_always_fallback :
  (forall average gelsd,
      Sklearn.fit average gelsd [1; 1]%float [nan; 0]%float
      = Py.Raises Py.ValueError)
  /\ straight_average [0x1.999999999999ap-4; 0x1.999999999999ap-4;
                       0x1.999999999999ap-4]%float
     = 0x1.999999999999bp-4%float
  /\ (forall gelsd,
        let centred := [-0x1p-56; -0x1p-56; -0x1p-56]%float in
        Sklearn.fit straight_average gelsd
          [0x1.999999999999ap-4; 0x1.999999999999ap-4;
           0x1.999999999999ap-4]%float
          [0x1.999999999999ap-4; 0x1.999999999999ap-4;
           0x1.999999999999ap-4]%float
        = Py.Returns
            {| Sklearn.coef_ := gelsd centred centred;
               Sklearn.intercept_ :=
                 (0x1.999999999999bp-4
                  - 0x1.999999999999bp-4 * gelsd centred centred)%float |})
  /\ ~ (forall average gelsd X y c,
          (1 <= List.length X)%nat -> List.length X = List.length y ->
          (forall x, In x X -> x = c) ->
          exists m, Sklearn.fit average gelsd X y = Py.Returns m
                    /\ Sklearn.coef_ m = 0%float
                    /\ Sklearn.intercept_ m = average y).
Proof.
  split; [intros average gelsd; reflexivity|].
  split; [vm_compute; reflexivity|].
  split; [intros gelsd; reflexivity|].
  intros H.
  destruct (H straight_average (fun _ _ => nan) [1; 1]%float [nan; 0]%float
              1%float) as [m [Hm _]].
  - simpl. lia.
  - reflexivity.
  - simpl. intros x [<-|[<-|[]]]; reflexivity.
  - discriminate Hm.
Qed.

(** ** The lexical-overlap score of a sentence with itself *)

Section SelfSimilarity.

Local Open Scope R_scope.

Lemma dot_self_pos (v : list R) (x : R) :
  In x v -> 0 < x -> 0 < Sklearn.dot v v.
Proof.
  induction v as [|y v IH]; intros Hin Hx; [destruct Hin|].
  rewrite dot_cons. pose proof (dot_self_nonneg v) as Hv.
  pose proof (Rle_0_sqr y) as Hy. unfold Rsqr in Hy.
  destruct Hin as [->|Hin].
  - pose proof (Rmult_lt_0_compat x x Hx Hx). lra.
  - pose proof (IH Hin Hx). lra.
Qed.

Lemma dot_scaled (v : list R) (c : R) :
  c <> 0 ->
  Sklearn.dot (map (fun x => x / c) v) (map (fun x => x / c) v)
  = Sklearn.dot v v / (c * c).
Proof.
  intros Hc. induction v as [|x v IH].
  - unfold Sklearn.dot. simpl. field. exact Hc.
  - cbn [map]. rewrite !dot_cons, IH. field. exact Hc.
Qed.

(** A row with a positive entry has cosine 1 with itself, before or after
    it has been normalized. *)
Lemma normalize_unit (v : list R) :
  0 < Sklearn.dot v v ->
  Sklearn.dot (Sklearn.normalize v) (Sklearn.normalize v) = 1.
Proof.
  intros Hpos. unfold Sklearn.normalize, Sklearn.norm2.
  pose proof (sqrt_lt_R0 _ Hpos) as Hn.
  destruct (Req_dec_T (sqrt (Sklearn.dot v v)) 0) as [E|_]; [lra|].
  rewrite dot_scaled by lra.
  rewrite sqrt_sqrt by lra. field. lra.
Qed.

Lemma cosine_self_nonzero (v : list R) :
  0 < Sklearn.dot v v ->
  Sklearn.cosine_similarity (Sklearn.normalize v) (Sklearn.normalize v) = 1.
Proof.
  intros Hpos. unfold Sklearn.cosine_similarity.
  apply normalize_unit. rewrite (normalize_unit v Hpos). lra.
Qed.

Lemma cosine_self_zero (v : list R) :
  (forall x, In x v -> x = 0) ->
  Sklearn.cosine_similarity (Sklearn.normalize v) (Sklearn.normalize v) = 0.
Proof.
  intros Hz.
  assert (Sklearn.normalize v = v) as E.
  { unfold Sklearn.normalize, Sklearn.norm2.
    rewrite (dot_zero_l v v Hz), sqrt_0.
    destruct (Req_dec_T 0 0) as [_|Hne]; [reflexivity|contradiction]. }
  unfold Sklearn.cosine_similarity. rewrite !E. apply dot_zero_l. exact Hz.
Qed.

Lemma df_le (raw_documents : list string) (t : string) :
  (Sklearn.df raw_documents t <= List.length raw_documents)%nat.
Proof. unfold Sklearn.df. apply filter_length_le. Qed.

Lemma idf_pos (raw_documents : list string) (t : string) :
  0 < ln ((1 + INR (List.length raw_documents))
          / (1 + INR (Sklearn.df raw_documents t))) + 1.
Proof.
  pose proof (df_le raw_documents t) as Hle. apply le_INR in Hle.
  pose proof (pos_INR (Sklearn.df raw_documents t)) as Hdf.
  set (n := INR (List.length raw_documents)) in *.
  set (d := INR (Sklearn.df raw_documents t)) in *.
  assert (1 <= (1 + n) / (1 + d)) as H1.
  { apply (Rmult_le_reg_r (1 + d)); [lra|].
    unfold Rdiv. rewrite Rmult_assoc, Rinv_l by lra. lra. }
  assert (0 <= ln ((1 + n) / (1 + d))) as H0.
  { rewrite <- ln_1. destruct H1 as [H1|<-]; [|lra].
    left. apply ln_increasing; lra. }
  lra.
Qed.

Lemma fitted_vocabulary (raw_documents : list string)
  (vectorizer : Sklearn.TfidfVectorizer) :
  Sklearn.tfidf_fit raw_documents = Py.Returns vectorizer ->
  (forall s t, In s raw_documents -> In t (Sklearn.analyze s) ->
               In t (Sklearn.vocabulary_ vectorizer))
  /\ forall t, 0 < Sklearn.idf_ vectorizer t.
Proof.
  unfold Sklearn.tfidf_fit.
  destruct (nodup string_dec (List.concat (map Sklearn.analyze raw_documents)))
    as [|t0 voc] eqn:E; [discriminate|].
  intros H. injection H as <-.
  cbn [Sklearn.vocabulary_ Sklearn.idf_]. split.
  - intros s t Hs Ht. rewrite <- E. apply nodup_In. apply in_concat.
    exists (Sklearn.analyze s). split; [apply in_map; exact Hs|exact Ht].
  - intros t. apply idf_pos.
Qed.

(** C8, as the code has it.  Once the vectorizer is fit on a corpus that
    contains the sentence, a sentence with at least one token (a run of two
    or more word characters) scores 1 against itself. *)
Theorem self_similarity_of_tokenized_sentence
  (raw_documents : list string) (vectorizer : Sklearn.TfidfVectorizer)
  (s : string) :
  Sklearn.tfidf_fit raw_documents = Py.Returns vectorizer ->
  In s raw_documents ->
  Sklearn.analyze s <> [] ->
  Syntactic.compute_tfidf_similarities [s] [s] vectorizer = [1].
Proof.
  intros Hfit Hs Htok.
  destruct (fitted_vocabulary _ Hfit) as [Hvoc Hidf].
  destruct (Sklearn.analyze s) as [|t toks] eqn:E; [contradiction|].
  unfold Syntactic.compute_tfidf_similarities. simpl. f_equal.
  unfold Sklearn.transform. apply cosine_self_nonzero.
  apply dot_self_pos
    with (x := INR (count_occ string_dec (Sklearn.analyze s) t)
               * Sklearn.idf_ vectorizer t).
  - apply in_map_iff. exists t. split; [reflexivity|].
    apply (Hvoc s t Hs). rewrite E. left. reflexivity.
  - apply Rmult_lt_0_compat; [|apply Hidf].
    apply lt_0_INR. apply count_occ_In. rewrite E. left. reflexivity.
Qed.

(** A sentence without a token has the zero row and scores 0 against
    itself. *)
Lemma self_similarity_without_token (vectorizer : Sklearn.TfidfVectorizer)
  (s : string) :
  Sklearn.analyze s = [] ->
  Syntactic.compute_tfidf_similarities [s] [s] vectorizer = [0].
Proof.
  intros E. unfold Syntactic.compute_tfidf_similarities. simpl. f_equal.
  unfold Sklearn.transform. apply cosine_self_zero.
  intros x Hx. apply in_map_iff in Hx as [t [<- _]].
  rewrite E. simpl. ring.
Qed.

End SelfSimilarity.

Lemma self_similarity_of_tokenized_sentence_witness :
  exists vectorizer,
    Syntactic.main_vectorizer ["a cat sat"; "a cat sat"]%string
                              ["a cat sat"; "a dog ran"]%string
    = Py.Returns vectorizer
    /\ Syntactic.compute_tfidf_similarities ["a cat sat"]%string
         ["a cat sat"]%string vectorizer = [1%R].
Proof.
  unfold Syntactic.main_vectorizer.
  destruct (Sklearn.tfidf_fit
              (["a cat sat"; "a cat sat"]%string ++ ["a cat sat"; "a dog ran"]%string)%list)
    as [vectorizer|e] eqn:E.
  - exists vectorizer. split; [reflexivity|].
    apply (@self_similarity_of_tokenized_sentence
             (["a cat sat"; "a cat sat"]%string ++ ["a cat sat"; "a dog ran"]%string)%list
             vectorizer "a cat sat"%string E).
    + simpl. auto.
    + vm_compute. discriminate.
  - exfalso. unfold Sklearn.tfidf_fit in E.
    destruct (nodup string_dec _) eqn:N in E;
      [vm_compute in N; discriminate N | discriminate E].
Defined.

(** C8, as the claim states it, fails: the one-letter sentence "a" is not
    empty and belongs to the corpus the vectorizer is fit on, yet it has no
    token, and its score against itself is 0, not 1. *)
Lemma one_letter_sentence_scores_zero :
  exists vectorizer,
    Syntactic.main_vectorizer ["a"; "a cat sat"]%string ["a"; "a dog ran"]%string
    = Py.Returns vectorizer
    /\ In "a"%string (["a"; "a cat sat"]%string ++ ["a"; "a dog ran"]%string)%list
    /\ "a"%string <> EmptyString
    /\ Syntactic.compute_tfidf_similarities ["a"]%string ["a"]%string vectorizer
       = [0%R]
    /\ Syntactic.compute_tfidf_similarities ["a"]%string ["a"]%string vectorizer
       <> [1%R].
Proof.
  unfold Syntactic.main_vectorizer.
  destruct (Sklearn.tfidf_fit
              (["a"; "a cat sat"]%string ++ ["a"; "a dog ran"]%string)%list)
    as [vectorizer|e] eqn:E.
  - exists vectorizer.
    assert (Syntactic.compute_tfidf_similarities ["a"]%string ["a"]%string
              vectorizer = [0%R]) as Hzero
      by (apply self_similarity_without_token; reflexivity).
    split; [reflexivity|]. split; [simpl; auto|]. split; [discriminate|].
    split; [exact Hzero|]. rewrite Hzero. intros H. injection H as H. lra.
  - exfalso. unfold Sklearn.tfidf_fit in E.
    destruct (nodup string_dec _) eqn:N in E;
      [vm_compute in N; discriminate N | discriminate E].
Qed.

(* ================================================================== *)
(** * Part III: further properties of the scripts *)
(* ================================================================== *)

(** ** The loaders *)

Section Loaders.

Lemma llama_load_row_keeps : keeps_accepted_rows LlamaLoader.load_row.
Proof.
  intros st i r. unfold LlamaLoader.load_row, accepted, ground_truth.
  rewrite Nat.leb_antisym.
  destruct (List.length r <? 7) eqn:Hlen; simpl.
  - rewrite !app_nil_r. auto.
  - destruct (Py.float (field r 4)); simpl; rewrite ?app_nil_r; auto.
Qed.

Lemma semantic_load_row_keeps : keeps_accepted_rows SemanticFiles.load_row.
Proof.
  intros st i r. unfold SemanticFiles.load_row, accepted, ground_truth.
  rewrite Nat.leb_antisym.
  destruct (List.length r <? 7) eqn:Hlen; simpl.
  - rewrite !app_nil_r. auto.
  - destruct (Py.float (field r 4)); simpl; rewrite ?app_nil_r; auto.
Qed.

(** X1.  The loaders of [llama_predictor.py] and [semantic.py] return, on
    every file, what the loaders of [predictor.py] and [syntactic.py]
    return: the sentences and scores of the accepted rows, in file order. *)
Theorem four_loaders_agree (reader : list row) :
  LlamaLoader.load_sts_data_csv reader = records_of reader
  /\ SemanticFiles.load_sts_data_csv reader = records_of reader
  /\ LlamaLoader.load_sts_data_csv reader = Predictor.load_sts_data_csv reader
  /\ SemanticFiles.load_sts_data_csv reader = Syntactic.load_sts_data_tsv reader.
Proof.
  pose proof (for_rows_records llama_load_row_keeps reader) as Hl.
  pose proof (for_rows_records semantic_load_row_keeps reader) as Hs.
  pose proof (for_rows_records predictor_load_row_keeps reader) as Hp.
  pose proof (for_rows_records syntactic_load_row_keeps reader) as Hy.
  unfold LlamaLoader.load_sts_data_csv, SemanticFiles.load_sts_data_csv,
    Predictor.load_sts_data_csv, Syntactic.load_sts_data_tsv.
  cbv zeta in *. rewrite Hl, Hs, Hp, Hy. auto.
Qed.

Lemma fold_rows_printed body (Hbody : prints_reported_rows body)
  (reader : list row) :
  forall i st,
    printed (snd (fold_left
                    (fun '(row_idx, st) r => (Datatypes.S row_idx, body st row_idx r))
                    reader (i, st)))
    = printed st ++ filter (fun p => reported (snd p)) (enumerate i reader).
Proof.
  induction reader as [|r reader IH]; intros i st; simpl.
  - rewrite app_nil_r. reflexivity.
  - rewrite IH, Hbody. destruct (reported r); simpl.
    + rewrite <- app_assoc. reflexivity.
    + rewrite app_nil_r. reflexivity.
Qed.

Lemma predictor_prints : prints_reported_rows Predictor.load_row.
Proof.
  intros st i r. unfold Predictor.load_row, reported.
  destruct r as [|f r']; [simpl; rewrite app_nil_r; reflexivity|].
  set (row := f :: r'). rewrite Nat.leb_antisym.
  destruct (List.length row <? 7); simpl.
  - rewrite app_nil_r. reflexivity.
  - destruct (Py.float (field row 4)); simpl; rewrite ?app_nil_r; reflexivity.
Qed.

Lemma syntactic_prints : prints_reported_rows Syntactic.load_row.
Proof.
  intros st i r. unfold Syntactic.load_row, reported.
  rewrite Nat.leb_antisym.
  destruct (List.length r <? 7); simpl.
  - rewrite app_nil_r. reflexivity.
  - destruct (Py.float (field r 4)); simpl; rewrite ?app_nil_r; reflexivity.
Qed.

Lemma llama_prints : prints_reported_rows LlamaLoader.load_row.
Proof.
  intros st i r. unfold LlamaLoader.load_row, reported.
  rewrite Nat.leb_antisym.
  destruct (List.length r <? 7); simpl.
  - rewrite app_nil_r. reflexivity.
  - destruct (Py.float (field r 4)); simpl; rewrite ?app_nil_r; reflexivity.
Qed.

Lemma semantic_prints : prints_reported_rows SemanticFiles.load_row.
Proof.
  intros st i r. unfold SemanticFiles.load_row, reported.
  rewrite Nat.leb_antisym.
  destruct (List.length r <? 7); simpl.
  - rewrite app_nil_r. reflexivity.
  - destruct (Py.float (field r 4)); simpl; rewrite ?app_nil_r; reflexivity.
Qed.

(** X2.  Each loader prints a "Skipping line" message for exactly the rows
    that have at least 7 fields and a field 4 that does not read as a float,
    in file order and with the row's index counted from 0; a row of fewer
    than 7 fields is passed over without a message. *)
Theorem loaders_print_parse_errors_only (reader : list row) :
  let report := filter (fun p => reported (snd p)) (enumerate 0 reader) in
  printed (for_rows Predictor.load_row reader) = report
  /\ printed (for_rows Syntactic.load_row reader) = report
  /\ printed (for_rows LlamaLoader.load_row reader) = report
  /\ printed (for_rows SemanticFiles.load_row reader) = report
  /\ forall i r, In (i, r) report <->
       nth_error reader i = Some r /\ 7 <= List.length r
       /\ Py.float (field r 4) = None.
Proof.
  cbv zeta. unfold for_rows.
  rewrite (fold_rows_printed predictor_prints), (fold_rows_printed syntactic_prints),
    (fold_rows_printed llama_prints), (fold_rows_printed semantic_prints).
  simpl. repeat (split; [reflexivity|]).
  assert (forall (l : list row) base i r,
             In (i, r) (enumerate base l)
             <-> base <= i /\ nth_error l (i - base) = Some r) as Henum.
  { induction l as [|x l IH]; intros base i r; simpl.
    - split; [tauto|]. intros [_ H]. destruct (i - base); discriminate H.
    - rewrite IH. split.
      + intros [H|[Hle H]].
        * injection H as <- <-. rewrite Nat.sub_diag. auto.
        * split; [lia|]. replace (i - base) with (Datatypes.S (i - Datatypes.S base)) by lia.
          exact H.
      + intros [Hle H]. destruct (i - base) as [|k] eqn:E.
        * left. injection H as <-. f_equal. lia.
        * right. split; [lia|]. replace (i - Datatypes.S base) with k by lia. exact H. }
  intros i r. rewrite filter_In, Henum, Nat.sub_0_r. simpl.
  unfold reported. rewrite andb_true_iff, Nat.leb_le.
  destruct (Py.float (field r 4)); split; intros H; try tauto.
  - destruct H as [_ [_ H]]. discriminate H.
  - destruct H as [_ [_ H]]. discriminate H.
  - split; [split; [lia|tauto]|tauto].
Qed.

Lemma enumerate_rows (reader : list row) :
  forall base, map snd (enumerate base reader) = reader.
Proof.
  induction reader as [|r reader IH]; intros base; simpl;
    [reflexivity|rewrite IH; reflexivity].
Qed.

Lemma filter_snd_length {T U : Type} (f : U -> bool) (l : list (T * U)) :
  List.length (filter (fun p => f (snd p)) l)
  = List.length (filter f (map snd l)).
Proof.
  induction l as [|p l IH]; simpl; [reflexivity|].
  destruct (f (snd p)); simpl; rewrite IH; reflexivity.
Qed.

Lemma rows_partition (reader : list row) :
  List.length reader
  = List.length (filter accepted reader)
    + List.length (filter reported reader)
    + List.length (filter (fun r => List.length r <? 7) reader).
Proof.
  induction reader as [|r reader IH]; simpl; [reflexivity|].
  assert ((accepted r = true /\ reported r = false
           /\ (List.length r <? 7) = false)
          \/ (accepted r = false /\ reported r = true
              /\ (List.length r <? 7) = false)
          \/ (accepted r = false /\ reported r = false
              /\ (List.length r <? 7) = true)) as Hcase.
  { unfold accepted, reported. rewrite Nat.leb_antisym.
    destruct (List.length r <? 7); simpl; [auto|].
    destruct (Py.float (field r 4)); auto. }
  destruct Hcase as [(-> & -> & ->)|[(-> & -> & ->)|(-> & -> & ->)]];
    simpl; lia.
Qed.

(** X3.  Every row of the file is accounted for exactly once: it is kept, or
    reported in a message, or shorter than 7 fields. *)
Theorem loader_accounts_for_every_row (reader : list row) :
  let st := for_rows Predictor.load_row reader in
  List.length reader
  = List.length (scores st) + List.length (printed st)
    + List.length (filter (fun r => List.length r <? 7) reader)
  /\ List.length (sents1 st) = List.length (scores st)
  /\ List.length (sents2 st) = List.length (scores st).
Proof.
  cbv zeta.
  pose proof (for_rows_records predictor_load_row_keeps reader) as H.
  cbv zeta in H. unfold records_of in H. injection H as H1 H2 H3.
  rewrite H1, H2, H3, !length_map.
  unfold for_rows. rewrite (fold_rows_printed predictor_prints). simpl.
  rewrite filter_snd_length, enumerate_rows.
  split; [apply rows_partition|split; reflexivity].
Qed.

Lemma accepted_firstn (r : row) : accepted (firstn 7 r) = accepted r.
Proof.
  unfold accepted, field. rewrite length_firstn, nth_firstn.
  change (4 <? 7) with true. cbv iota.
  replace (7 <=? Nat.min 7 (List.length r)) with (7 <=? List.length r);
    [reflexivity|].
  destruct (7 <=? List.length r) eqn:E; symmetry.
  - apply Nat.leb_le in E. apply Nat.leb_le. lia.
  - apply Nat.leb_gt in E. apply Nat.leb_gt. lia.
Qed.

Lemma map_accepted_firstn (T : Type) (g : row -> T) (reader : list row) :
  (forall r, g (firstn 7 r) = g r) ->
  map g (filter accepted (map (firstn 7) reader))
  = map g (filter accepted reader).
Proof.
  intros Hg. induction reader as [|r l IH]; [reflexivity|].
  cbn [map filter]. rewrite accepted_firstn.
  destruct (accepted r); cbn [map]; [rewrite Hg, IH; reflexivity|exact IH].
Qed.

(** X4.  Fields beyond the seventh play no part: cutting every row down to
    its first 7 fields does not change what the loader returns. *)
Theorem loader_ignores_trailing_fields (reader : list row) :
  Predictor.load_sts_data_csv (map (firstn 7) reader)
  = Predictor.load_sts_data_csv reader.
Proof.
  pose proof (for_rows_records predictor_load_row_keeps reader) as H.
  pose proof (for_rows_records predictor_load_row_keeps (map (firstn 7) reader)) as H7.
  unfold Predictor.load_sts_data_csv. cbv zeta in *. rewrite H, H7.
  unfold records_of. rewrite !map_accepted_firstn; [reflexivity| | |].
  - intros r. unfold ground_truth, field. rewrite nth_firstn. reflexivity.
  - intros r. unfold field. rewrite nth_firstn. reflexivity.
  - intros r. unfold field. rewrite nth_firstn. reflexivity.
Qed.

(** X5.  Rows are judged one by one: what the loader returns for a file
    made of two parts is, list by list, what it returns for the first part
    followed by what it returns for the second. *)
Theorem loader_of_appended_files (part1 part2 : list row) :
  let a := Predictor.load_sts_data_csv part1 in
  let b := Predictor.load_sts_data_csv part2 in
  Predictor.load_sts_data_csv (part1 ++ part2)
  = (fst (fst a) ++ fst (fst b), snd (fst a) ++ snd (fst b), snd a ++ snd b).
Proof.
  pose proof (for_rows_records predictor_load_row_keeps part1) as H1.
  pose proof (for_rows_records predictor_load_row_keeps part2) as H2.
  pose proof (for_rows_records predictor_load_row_keeps (part1 ++ part2)) as H.
  unfold Predictor.load_sts_data_csv. cbv zeta in *. rewrite H1, H2, H.
  unfold records_of. rewrite filter_app, !map_app. reflexivity.
Qed.

End Loaders.

(** ** The elicited scorer *)

Section ElicitedScorer.

Local Open Scope float_scope.

Lemma SFcompare_same (x : spec_float) :
  x <> S754_nan -> SFcompare x x = Some Eq.
Proof.
  destruct x as [s|s| |s m e]; simpl; intros H;
    try (destruct s; reflexivity); try congruence.
  destruct s; rewrite Z.compare_refl;
    change (PosDef.Pos.compare_cont Eq m m) with (Pos.compare m m);
    rewrite Pos.compare_refl; reflexivity.
Qed.

Lemma Prim2SF_is_nan (a : float) :
  Prim2SF a <> S754_nan -> is_nan a = false.
Proof.
  intros H. unfold is_nan. rewrite FloatAxioms.eqb_spec. unfold SFeqb.
  rewrite (SFcompare_same H). reflexivity.
Qed.

Lemma is_nan_true_Prim2SF (a : float) :
  is_nan a = true -> Prim2SF a = S754_nan.
Proof.
  intros H. destruct (Prim2SF a) eqn:E; try reflexivity;
    rewrite Prim2SF_is_nan in H by (rewrite E; discriminate);
    discriminate H.
Qed.

Lemma leb_numbers (a b : float) :
  (a <=? b) = true -> is_nan a = false /\ is_nan b = false.
Proof.
  rewrite FloatAxioms.leb_spec. unfold SFleb. intros H.
  split; apply Prim2SF_is_nan; intros E; rewrite E in H;
    [|destruct (Prim2SF a)]; discriminate H.
Qed.

Lemma leb_not_ltb (a b : float) : (a <=? b) = true -> (b <? a) = false.
Proof.
  rewrite FloatAxioms.leb_spec, FloatAxioms.ltb_spec. unfold SFleb, SFltb.
  rewrite (SFcompare_antisym (Prim2SF a) (Prim2SF b)).
  destruct (SFcompare (Prim2SF a) (Prim2SF b)) as [[ | | ]|];
    intros H; try discriminate H; reflexivity.
Qed.

Lemma nan_times (v w : float) : is_nan v = true -> is_nan (v * w) = true.
Proof.
  intros H. apply is_nan_true_Prim2SF in H.
  destruct (is_nan (v * w)) eqn:E; [reflexivity|].
  apply is_nan_Prim2SF in E. exfalso. apply E.
  rewrite FloatAxioms.mul_spec, H. reflexivity.
Qed.

Lemma nan_not_ltb (a b : float) : is_nan a = true -> (a <? b) = false.
Proof.
  intros H. apply is_nan_true_Prim2SF in H.
  rewrite FloatAxioms.ltb_spec, H. reflexivity.
Qed.

(** The clip [max(0.0, min(5.0, x))] of lines 101-102, case by case. *)
Lemma clip_cases (x : float) :
  (is_nan x = true -> Py.max 0 (Py.min 5 x) = 5)
  /\ ((5 <=? x) = true -> Py.max 0 (Py.min 5 x) = 5)
  /\ ((x <=? 0) = true -> Py.max 0 (Py.min 5 x) = 0)
  /\ ((0 <? x) = true -> (x <? 5) = true -> Py.max 0 (Py.min 5 x) = x).
Proof.
  unfold Py.max, Py.min. split; [|split; [|split]].
  - intros H. rewrite (nan_not_ltb x 5 H). reflexivity.
  - intros H. rewrite (leb_not_ltb H). reflexivity.
  - intros H. destruct (leb_numbers H) as [Hx _].
    assert ((x <? 5) = true) as ->.
    { apply place_ltb; [exact Hx|reflexivity|].
      destruct (leb_place H) as [Hlt|Heq].
      - apply (place_lt_trans Hlt). apply ltb_place. reflexivity.
      - rewrite Heq. apply ltb_place. reflexivity. }
    rewrite (leb_not_ltb H). reflexivity.
  - intros H0 H5. rewrite H5, H0. reflexivity.
Qed.

(** X6.  Whatever the model server does, every raw score the loop of
    [main] collects is a number between 0 and 5: a parsed score is clipped
    into that range and the fallback 2.5 lies in it. *)
Theorem llm_raw_scores_in_range (World : Type)
  (chat : string -> World -> Llama.chat_outcome * World)
  (sents1 sents2 : list string) (w : World) :
  Forall in_target_range (fst (Llama.main_pred_raw chat sents1 sents2 w))
  /\ Forall (fun v => is_nan v = false)
       (fst (Llama.main_pred_raw chat sents1 sents2 w)).
Proof.
  assert (Forall in_target_range
            (fst (Llama.main_pred_raw chat sents1 sents2 w))) as Hrange.
  { unfold Llama.main_pred_raw. generalize (combine sents1 sents2) as pairs.
    intros pairs. revert w.
    induction pairs as [|p pairs IH]; intros w; simpl; [constructor|].
    unfold Llama.get_llm_similarity_ollama.
    destruct (chat (Llama.prompt_text (fst p) (snd p)) w) as [r w'].
    assert (forall val, Forall in_target_range [val] ->
              Forall in_target_range
                (fst (fold_left (Llama.pred_raw_step chat) pairs ([val], w'))))
      as Hcons.
    { intros val Hval. rewrite pred_raw_loop_acc. simpl.
      inversion Hval; subst. constructor; [assumption|apply IH]. }
    destruct r as [|output]; simpl.
    - apply Hcons. constructor; [split; reflexivity|constructor].
    - destruct (Llama.score_of_output output) as [v|] eqn:E; apply Hcons.
      + constructor; [|constructor]. unfold Llama.score_of_output in E.
        destruct (Llama.first_float (Py.split output)); [|discriminate E].
        injection E as <-. apply clip_in_range.
      + constructor; [split; reflexivity|constructor]. }
  split; [exact Hrange|].
  apply (Forall_impl _ (P := in_target_range)); [|exact Hrange].
  intros v [H0 _]. apply (leb_numbers H0).
Qed.

(** X7.  The clip keeps a scaled value that lies strictly between 0 and 5,
    sends a value of 5 or more to 5.0 and a value of 0 or less to 0.0, and
    sends NaN to 5.0 as well: a reply whose first parseable chunk is [nan]
    gets the top score. *)
Theorem score_of_output_clip_cases (output : string) (v : float) :
  Llama.first_float (Py.split output) = Some v ->
  (is_nan v = true -> Llama.score_of_output output = Some 5)
  /\ ((5 <=? v * 5) = true -> Llama.score_of_output output = Some 5)
  /\ ((v * 5 <=? 0) = true -> Llama.score_of_output output = Some 0)
  /\ ((0 <? v * 5) = true -> (v * 5 <? 5) = true ->
      Llama.score_of_output output = Some (v * 5)).
Proof.
  intros Hv. unfold Llama.score_of_output. rewrite Hv.
  destruct (clip_cases (v * 5)) as (Hnan & Hhigh & Hlow & Hmid).
  split; [|split; [|split]].
  - intros H. rewrite (Hnan (nan_times v 5 H)). reflexivity.
  - intros H. rewrite (Hhigh H). reflexivity.
  - intros H. rewrite (Hlow H). reflexivity.
  - intros H0 H5. rewrite (Hmid H0 H5). reflexivity.
Qed.

Lemma score_of_output_clip_cases_witness :
  (is_nan nan = true -> Llama.score_of_output "nan or so" = Some 5)
  /\ ((5 <=? nan * 5) = true -> Llama.score_of_output "nan or so" = Some 5)
  /\ ((nan * 5 <=? 0) = true -> Llama.score_of_output "nan or so" = Some 0)
  /\ ((0 <? nan * 5) = true -> (nan * 5 <? 5) = true ->
      Llama.score_of_output "nan or so" = Some (nan * 5)).
Proof.
  apply (@score_of_output_clip_cases "nan or so" nan).
  vm_compute. reflexivity.
Defined.

End ElicitedScorer.

Section Requests.

Variable World : Type.
Variable chat : string -> World -> Llama.chat_outcome * World.

Lemma get_llm_similarity_world (sent1 sent2 : string) (w : World) :
  snd (Llama.get_llm_similarity_ollama chat sent1 sent2 w)
  = snd (chat (Llama.prompt_text sent1 sent2) w).
Proof.
  unfold Llama.get_llm_similarity_ollama.
  destruct (chat (Llama.prompt_text sent1 sent2) w) as [[|output] w'];
    reflexivity.
Qed.

(** X8.  The loop of [main] sends the model server exactly one request per
    sentence pair, in the order of the pairs, whether a request fails or
    not: there is no retry and no pair is passed over. *)
Theorem one_request_per_pair (sents1 sents2 : list string) (w : World) :
  snd (Llama.main_pred_raw chat sents1 sents2 w)
  = after_prompts chat (combine sents1 sents2) w.
Proof.
  unfold Llama.main_pred_raw, after_prompts.
  generalize (combine sents1 sents2) as pairs. intros pairs.
  generalize (@nil float) as acc. revert w.
  induction pairs as [|p pairs IH]; intros w acc; simpl; [reflexivity|].
  pose proof (get_llm_similarity_world (fst p) (snd p) w) as Hw.
  destruct (Llama.get_llm_similarity_ollama chat (fst p) (snd p) w) as [val w'].
  simpl in Hw. rewrite <- Hw. apply IH.
Qed.

End Requests.

Section LenientParsing.

Local Open Scope float_scope.

Lemma runs_from_text (sep : ascii -> bool) (a : string) :
  forall cur rest,
    (forall c, In c (list_ascii_of_string a) -> sep c = false) ->
    Py.runs_from sep cur (a ++ rest) = Py.runs_from sep (cur ++ a) rest.
Proof.
  induction a as [|c a IH]; intros cur rest H; simpl in *.
  - rewrite string_app_nil_r. reflexivity.
  - rewrite (H c (or_introl eq_refl)), IH by (intros d Hd; apply H; right; exact Hd).
    rewrite string_app_assoc. reflexivity.
Qed.

Lemma space_free_chars (a : string) :
  space_free a = true ->
  forall c, In c (list_ascii_of_string a) -> Py.isspace c = false.
Proof.
  induction a as [|d a IH]; simpl; intros H c Hc; [destruct Hc|].
  apply andb_true_iff in H as [Hd Ha]. apply negb_true_iff in Hd.
  destruct Hc as [<-|Hc]; [exact Hd|apply IH; assumption].
Qed.

Lemma split_first_chunk (tok : string) (sep : ascii) (rest : string) :
  space_free tok = true -> tok <> EmptyString -> Py.isspace sep = true ->
  Py.split (tok ++ String sep rest) = tok :: Py.split rest.
Proof.
  intros Hfree Hne Hsep. unfold Py.split.
  rewrite (runs_from_text Py.isspace tok EmptyString (String sep rest)
             (space_free_chars tok Hfree)).
  simpl. rewrite Hsep. destruct tok; [contradiction|reflexivity].
Qed.

(** X9.  Once the reply starts with a chunk that reads as a float, nothing
    that follows it matters: the score is that of the first chunk alone,
    whatever text comes after the white space. *)
Theorem text_after_first_number_is_ignored
  (tok : string) (sep : ascii) (rest : string) (v : float) :
  space_free tok = true -> Py.isspace sep = true ->
  Py.float tok = Some v ->
  Llama.score_of_output (tok ++ String sep rest)
  = Some (Py.max 0 (Py.min 5 (v * 5)))
  /\ Llama.score_of_output (tok ++ String sep rest) = Llama.score_of_output tok.
Proof.
  intros Hfree Hsep Hv.
  assert (tok <> EmptyString) as Hne
    by (intros ->; vm_compute in Hv; discriminate Hv).
  assert (Py.split tok = [tok]) as Htok.
  { unfold Py.split.
    rewrite <- (string_app_nil_r tok) at 1.
    rewrite (runs_from_text Py.isspace tok EmptyString EmptyString
               (space_free_chars tok Hfree)).
    simpl. destruct tok; [contradiction|reflexivity]. }
  unfold Llama.score_of_output.
  rewrite (@split_first_chunk tok sep rest Hfree Hne Hsep), Htok. simpl.
  rewrite Hv. split; reflexivity.
Qed.

End LenientParsing.

Lemma text_after_first_number_is_ignored_witness :
  Llama.score_of_output ("0.8" ++ String " " "but maybe 0.1")
  = Some (Py.max 0 (Py.min 5 (0x1.999999999999ap-1 * 5)))%float
  /\ Llama.score_of_output ("0.8" ++ String " " "but maybe 0.1")
     = Llama.score_of_output "0.8".
Proof.
  apply (@text_after_first_number_is_ignored "0.8" " "%char "but maybe 0.1"
           0x1.999999999999ap-1%float).
  - reflexivity.
  - reflexivity.
  - vm_compute. reflexivity.
Defined.

(** ** The files the scripts write *)

Section Dumps.

Variable A : Type.
Variable str : A -> string.

(** X10.  The writers of [predictor.py], [syntactic.py] and [semantic.py]
    replace whatever the file held by one line per score, in the order of
    the scores, each line being the text of its score; no other file is
    touched. *)
Theorem score_dump_one_line_per_score (scores : list A) (path : string)
  (fs : filesystem) :
  Forall (fun s => line_feed_free (str s) = true) scores ->
  exists text,
    Predictor.save_scores_to_file str scores path fs path = Some text
    /\ Syntactic.save_scores_to_file str scores path fs path = Some text
    /\ SemanticFiles.save_scores_to_file str scores path fs path = Some text
    /\ lines text = map str scores
    /\ forall other, other <> path ->
         Predictor.save_scores_to_file str scores path fs other = fs other
         /\ Syntactic.save_scores_to_file str scores path fs other = fs other
         /\ SemanticFiles.save_scores_to_file str scores path fs other = fs other.
Proof.
  intros H. eexists.
  unfold Predictor.save_scores_to_file, Syntactic.save_scores_to_file,
    SemanticFiles.save_scores_to_file, store.
  rewrite String.eqb_refl.
  split; [reflexivity|split; [reflexivity|split; [reflexivity|split]]].
  - rewrite dump_loop. simpl. apply lines_of_terminated. exact H.
  - intros other Hne. apply String.eqb_neq in Hne. rewrite Hne. auto.
Qed.

Lemma lines_from_count (scores : list A) :
  Forall (fun s => line_feed_free (str s) = true) scores ->
  forall cur,
    List.length
      (lines_from cur (fold_right (fun s r => str s ++ r)%string EmptyString scores))
    <= 1.
Proof.
  induction 1 as [|s scores Hs _ IH]; intros cur; simpl.
  - destruct cur; simpl; lia.
  - rewrite (lines_from_text _ _ _ Hs). apply IH.
Qed.

(** X11.  The writer of [llama_predictor.py] puts nothing between the
    scores: the file holds their texts run together, which a reader sees as
    a single line at most, so two or more scores never come back as one line
    each. *)
Theorem llama_score_dump_is_one_line (scores : list A) (path : string)
  (fs : filesystem) :
  Forall (fun s => line_feed_free (str s) = true) scores ->
  2 <= List.length scores ->
  exists text,
    Llama.save_scores_to_file str scores path fs path = Some text
    /\ text = fold_right (fun s r => str s ++ r)%string EmptyString scores
    /\ List.length (lines text) <= 1
    /\ lines text <> map str scores.
Proof.
  intros H Hn. eexists. split; [apply llama_dump_text|].
  split; [reflexivity|].
  pose proof (lines_from_count H EmptyString) as Hle. fold (lines
    (fold_right (fun s r => str s ++ r)%string EmptyString scores)) in Hle.
  split; [exact Hle|].
  intros E. rewrite E, length_map in Hle. lia.
Qed.

Lemma line_feed_free_app (a b : string) :
  line_feed_free (a ++ b) = line_feed_free a && line_feed_free b.
Proof.
  induction a as [|c a IH]; simpl; [reflexivity|].
  rewrite IH, andb_assoc. reflexivity.
Qed.

Lemma fields_from_text (a : string) :
  forall cur rest,
    tab_free a = true ->
    fields_from cur (a ++ rest) = fields_from (cur ++ a) rest.
Proof.
  induction a as [|c a IH]; intros cur rest H; simpl in *.
  - rewrite string_app_nil_r. reflexivity.
  - apply andb_true_iff in H as [Hc Ha]. apply negb_true_iff in Hc.
    rewrite Hc, (IH _ _ Ha), string_app_assoc. reflexivity.
Qed.

Lemma fields_from_last (a cur : string) :
  tab_free a = true -> fields_from cur a = [(cur ++ a)%string].
Proof.
  intros H. pose proof (fields_from_text a cur EmptyString H) as E.
  rewrite string_app_nil_r in E. exact E.
Qed.

Lemma fields_of_sentence_line (s1 s2 : string) (score : A) :
  tab_free s1 = true -> tab_free s2 = true -> tab_free (str score) = true ->
  fields (Main.sentence_line str (s1, (s2, score))) = [s1; s2; str score].
Proof.
  intros H1 H2 H3. unfold fields, Main.sentence_line. simpl.
  rewrite (fields_from_text s1 EmptyString _ H1). simpl.
  rewrite (fields_from_text s2 EmptyString _ H2). simpl.
  rewrite (fields_from_last (str score) EmptyString H3). reflexivity.
Qed.

(** X12.  The sentence dump of [main] holds one line per record, in order,
    as long as the two sentence lists and the score list go; the three tab
    separated fields of a line are the two sentences and the text of the
    score, so the records can be read back from the file.  The sentences
    and score texts hold no tab and no line feed. *)
Theorem sentence_dump_reads_back (sents1 sents2 : list string)
  (pred_raw : list A) (path : string) (fs : filesystem) :
  Forall (fun s => line_feed_free s = true /\ tab_free s = true) sents1 ->
  Forall (fun s => line_feed_free s = true /\ tab_free s = true) sents2 ->
  Forall (fun s => line_feed_free (str s) = true /\ tab_free (str s) = true)
    pred_raw ->
  exists text,
    Main.save_sentences str sents1 sents2 pred_raw path fs path = Some text
    /\ map fields (lines text)
       = map (fun rec => [fst rec; fst (snd rec); str (snd (snd rec))])
           (combine sents1 (combine sents2 pred_raw))
    /\ List.length (lines text)
       = Nat.min (List.length sents1)
           (Nat.min (List.length sents2) (List.length pred_raw)).
Proof.
  intros H1 H2 H3. eexists. unfold Main.save_sentences, store.
  rewrite String.eqb_refl. split; [reflexivity|].
  rewrite (dump_loop (Main.sentence_line str) nl). simpl.
  assert (Forall (fun rec =>
                    (line_feed_free (fst rec) = true /\ tab_free (fst rec) = true)
                    /\ (line_feed_free (fst (snd rec)) = true
                        /\ tab_free (fst (snd rec)) = true)
                    /\ (line_feed_free (str (snd (snd rec))) = true
                        /\ tab_free (str (snd (snd rec))) = true))
            (combine sents1 (combine sents2 pred_raw))) as Hrec.
  { rewrite Forall_forall in *. intros [s1 [s2 sc]] Hin. simpl.
    pose proof (in_combine_l _ _ _ _ Hin) as Hs1.
    pose proof (in_combine_r _ _ _ _ Hin) as Hrest.
    pose proof (in_combine_l _ _ _ _ Hrest) as Hs2.
    pose proof (in_combine_r _ _ _ _ Hrest) as Hsc.
    auto. }
  rewrite lines_of_terminated.
  - split.
    + rewrite map_map. apply map_ext_in. intros [s1 [s2 sc]] Hin.
      rewrite Forall_forall in Hrec. destruct (Hrec _ Hin) as ((_ & T1) & (_ & T2) & (_ & T3)).
      simpl in *. apply fields_of_sentence_line; assumption.
    + rewrite length_map, !length_combine. reflexivity.
  - apply (Forall_impl _ (P := fun rec =>
                    (line_feed_free (fst rec) = true /\ tab_free (fst rec) = true)
                    /\ (line_feed_free (fst (snd rec)) = true
                        /\ tab_free (fst (snd rec)) = true)
                    /\ (line_feed_free (str (snd (snd rec))) = true
                        /\ tab_free (str (snd (snd rec))) = true)));
      [|exact Hrec].
    intros rec ((L1 & _) & (L2 & _) & (L3 & _)). unfold Main.sentence_line.
    rewrite !line_feed_free_app, L1, L2, L3. reflexivity.
Qed.

End Dumps.

Lemma score_dump_one_line_per_score_witness :
  exists text,
    Predictor.save_scores_to_file Py.format_4f [2.5; 4]%float "scores.txt"
      (fun _ => None) "scores.txt"%string = Some text
    /\ Syntactic.save_scores_to_file Py.format_4f [2.5; 4]%float "scores.txt"
         (fun _ => None) "scores.txt"%string = Some text
    /\ SemanticFiles.save_scores_to_file Py.format_4f [2.5; 4]%float "scores.txt"
         (fun _ => None) "scores.txt"%string = Some text
    /\ lines text = map Py.format_4f [2.5; 4]%float
    /\ forall other, other <> "scores.txt"%string ->
         Predictor.save_scores_to_file Py.format_4f [2.5; 4]%float "scores.txt"
           (fun _ => None) other = None
         /\ Syntactic.save_scores_to_file Py.format_4f [2.5; 4]%float "scores.txt"
              (fun _ => None) other = None
         /\ SemanticFiles.save_scores_to_file Py.format_4f [2.5; 4]%float
              "scores.txt" (fun _ => None) other = None.
Proof.
  apply (@score_dump_one_line_per_score float Py.format_4f [2.5; 4]%float
           "scores.txt"%string (fun _ => None)).
  repeat constructor.
Defined.

Lemma llama_score_dump_is_one_line_witness :
  exists text,
    Llama.save_scores_to_file Py.format_4f [2.5; 4]%float "scores.txt"
      (fun _ => None) "scores.txt"%string = Some text
    /\ text = fold_right (fun s r => Py.format_4f s ++ r)%string EmptyString
                [2.5; 4]%float
    /\ List.length (lines text) <= 1
    /\ lines text <> map Py.format_4f [2.5; 4]%float.
Proof.
  apply (@llama_score_dump_is_one_line float Py.format_4f [2.5; 4]%float
           "scores.txt"%string (fun _ => None)).
  - repeat constructor.
  - simpl. lia.
Defined.

Lemma sentence_dump_reads_back_witness :
  exists text,
    Main.save_sentences Py.format_4f ["a cat sat"; "a cat sat"]%string
      ["a cat sat"; "a dog ran"]%string [2.5; 4]%float "sentences.txt"
      (fun _ => None) "sentences.txt"%string = Some text
    /\ map fields (lines text)
       = map (fun rec => [fst rec; fst (snd rec); Py.format_4f (snd (snd rec))])
           (combine ["a cat sat"; "a cat sat"]%string
              (combine ["a cat sat"; "a dog ran"]%string [2.5; 4]%float))
    /\ List.length (lines text)
       = Nat.min (List.length ["a cat sat"; "a cat sat"]%string)
           (Nat.min (List.length ["a cat sat"; "a dog ran"]%string)
              (List.length [2.5; 4]%float)).
Proof.
  apply (@sentence_dump_reads_back float Py.format_4f
           ["a cat sat"; "a cat sat"]%string ["a cat sat"; "a dog ran"]%string
           [2.5; 4]%float "sentences.txt"%string (fun _ => None)).
  - repeat constructor.
  - repeat constructor.
  - repeat constructor.
Defined.

(** ** The lexical-overlap scorer *)

Section LexicalOverlap.

Local Open Scope R_scope.

Lemma dot_comm (u v : list R) : Sklearn.dot u v = Sklearn.dot v u.
Proof.
  revert v. induction u as [|x u IH]; intros [|y v]; try reflexivity.
  rewrite !dot_cons, IH. ring.
Qed.

Lemma dot_nonneg (u v : list R) :
  (forall x, In x u -> 0 <= x) -> (forall y, In y v -> 0 <= y) ->
  0 <= Sklearn.dot u v.
Proof.
  revert v. induction u as [|x u IH]; intros [|y v] Hu Hv;
    try (unfold Sklearn.dot; simpl; lra).
  rewrite dot_cons.
  pose proof (Rmult_le_pos x y (Hu x (or_introl eq_refl)) (Hv y (or_introl eq_refl))).
  pose proof (IH v (fun a Ha => Hu a (or_intror Ha))
                   (fun b Hb => Hv b (or_intror Hb))).
  lra.
Qed.

Lemma normalize_nonneg (v : list R) :
  (forall x, In x v -> 0 <= x) ->
  forall x, In x (Sklearn.normalize v) -> 0 <= x.
Proof.
  intros Hv x. unfold Sklearn.normalize.
  destruct (Req_dec_T (Sklearn.norm2 v) 0) as [_|Hne]; [apply Hv|].
  intros Hx. apply in_map_iff in Hx as [a [<- Ha]].
  assert (0 < Sklearn.norm2 v) as Hn.
  { pose proof (sqrt_pos (Sklearn.dot v v)). unfold Sklearn.norm2 in *. lra. }
  apply Rmult_le_pos; [apply Hv; exact Ha|].
  left. apply Rinv_0_lt_compat. exact Hn.
Qed.

Lemma cosine_nonneg (u v : list R) :
  (forall x, In x u -> 0 <= x) -> (forall y, In y v -> 0 <= y) ->
  0 <= Sklearn.cosine_similarity u v.
Proof.
  intros Hu Hv. unfold Sklearn.cosine_similarity.
  apply dot_nonneg; apply normalize_nonneg; assumption.
Qed.

Lemma transform_nonneg (vectorizer : Sklearn.TfidfVectorizer) (doc : string) :
  (forall t, 0 < Sklearn.idf_ vectorizer t) ->
  forall x, In x (Sklearn.transform vectorizer doc) -> 0 <= x.
Proof.
  intros Hidf. unfold Sklearn.transform. apply normalize_nonneg.
  intros x Hx. apply in_map_iff in Hx as [t [<- _]].
  apply Rmult_le_pos; [apply pos_INR|left; apply Hidf].
Qed.

(** X13.  With a fitted vectorizer, [compute_tfidf_similarities] returns one
    score per pair of [zip(sents1, sents2)], and no score is negative.  (Of
    the docstring's range [0..1] only the lower end is stated: the upper
    end holds up to rounding.) *)
Theorem tfidf_similarities_nonnegative
  (raw_documents : list string) (vectorizer : Sklearn.TfidfVectorizer)
  (sents1 sents2 : list string) :
  Sklearn.tfidf_fit raw_documents = Py.Returns vectorizer ->
  List.length (Syntactic.compute_tfidf_similarities sents1 sents2 vectorizer)
  = Nat.min (List.length sents1) (List.length sents2)
  /\ Forall (fun sim => 0 <= sim)
       (Syntactic.compute_tfidf_similarities sents1 sents2 vectorizer).
Proof.
  intros Hfit. destruct (fitted_vocabulary _ Hfit) as [_ Hidf].
  unfold Syntactic.compute_tfidf_similarities. split.
  - rewrite length_map, length_combine. reflexivity.
  - apply Forall_forall. intros sim Hsim.
    apply in_map_iff in Hsim as [p [<- _]].
    apply cosine_nonneg; apply transform_nonneg; exact Hidf.
Qed.

(** X14.  The score does not depend on the order of the two sentences:
    scoring the pairs the other way round gives the same list. *)
Theorem tfidf_similarities_symmetric (vectorizer : Sklearn.TfidfVectorizer)
  (sents1 sents2 : list string) :
  Syntactic.compute_tfidf_similarities sents1 sents2 vectorizer
  = Syntactic.compute_tfidf_similarities sents2 sents1 vectorizer.
Proof.
  unfold Syntactic.compute_tfidf_similarities.
  revert sents2. induction sents1 as [|a l IH]; intros [|b l2]; simpl;
    try reflexivity.
  rewrite IH. f_equal. unfold Sklearn.cosine_similarity. apply dot_comm.
Qed.

End LexicalOverlap.

Section OutOfVocabulary.

Local Open Scope R_scope.

Lemma normalize_scales (v : list R) :
  exists c, Sklearn.normalize v = map (fun x => x * c) v.
Proof.
  unfold Sklearn.normalize.
  destruct (Req_dec_T (Sklearn.norm2 v) 0) as [_|Hne].
  - exists 1. rewrite <- (map_id v) at 1. apply map_ext. intros x. ring.
  - exists (/ Sklearn.norm2 v). apply map_ext. intros x. reflexivity.
Qed.

Lemma dot_map_scaled {T : Type} (f g : T -> R) (c d : R) (l : list T) :
  Sklearn.dot (map (fun t => f t * c) l) (map (fun t => g t * d) l)
  = c * d * Sklearn.dot (map f l) (map g l).
Proof.
  induction l as [|t l IH].
  - unfold Sklearn.dot. simpl. ring.
  - cbn [map]. rewrite !dot_cons, IH. ring.
Qed.

Lemma dot_no_common_entry {T : Type} (f g : T -> R) (l : list T) :
  (forall t, In t l -> f t * g t = 0) ->
  Sklearn.dot (map f l) (map g l) = 0.
Proof.
  induction l as [|t l IH]; intros H.
  - reflexivity.
  - cbn [map]. rewrite dot_cons, (H t (or_introl eq_refl)), IH; [ring|].
    intros u Hu. apply H. right. exact Hu.
Qed.

(** X15.  Terms outside the fitted vocabulary carry no weight and raise no
    error: two sentences that share no term of the vocabulary score 0, and
    so does a sentence none of whose terms is in the vocabulary against any
    sentence. *)
Theorem sentences_without_common_term_score_zero
  (vectorizer : Sklearn.TfidfVectorizer) (s1 s2 : string) :
  (forall t, In t (Sklearn.vocabulary_ vectorizer) ->
             In t (Sklearn.analyze s1) -> In t (Sklearn.analyze s2) -> False) ->
  Syntactic.compute_tfidf_similarities [s1] [s2] vectorizer = [0].
Proof.
  intros Hdisjoint. unfold Syntactic.compute_tfidf_similarities. simpl.
  f_equal. unfold Sklearn.cosine_similarity, Sklearn.transform.
  set (w := fun s t => INR (count_occ string_dec (Sklearn.analyze s) t)
                       * Sklearn.idf_ vectorizer t).
  change (map (fun t => INR (count_occ string_dec (Sklearn.analyze s1) t)
                        * Sklearn.idf_ vectorizer t))
    with (map (w s1)).
  change (map (fun t => INR (count_occ string_dec (Sklearn.analyze s2) t)
                        * Sklearn.idf_ vectorizer t))
    with (map (w s2)).
  set (voc := Sklearn.vocabulary_ vectorizer) in *.
  destruct (normalize_scales (map (w s1) voc)) as [c1 E1].
  destruct (normalize_scales (map (w s2) voc)) as [c2 E2].
  rewrite E1, E2, !map_map.
  destruct (normalize_scales (map (fun t => w s1 t * c1) voc)) as [d1 F1].
  destruct (normalize_scales (map (fun t => w s2 t * c2) voc)) as [d2 F2].
  rewrite F1, F2, !map_map.
  rewrite (dot_map_scaled (fun t => w s1 t * c1) (fun t => w s2 t * c2) d1 d2 voc).
  rewrite (dot_map_scaled (w s1) (w s2) c1 c2 voc).
  rewrite dot_no_common_entry; [ring|].
  intros t Ht. unfold w.
  destruct (in_dec string_dec t (Sklearn.analyze s1)) as [H1|H1].
  - assert (~ In t (Sklearn.analyze s2)) as H2 by (intros H2; exact (Hdisjoint t Ht H1 H2)).
    apply (count_occ_not_In string_dec) in H2. rewrite H2. simpl. ring.
  - apply (count_occ_not_In string_dec) in H1. rewrite H1. simpl. ring.
Qed.

Lemma concat_nil {T : Type} (ls : list (list T)) :
  List.concat ls = [] <-> Forall (fun l => l = []) ls.
Proof.
  induction ls as [|l ls IH]; simpl.
  - split; [constructor|reflexivity].
  - split.
    + intros H. apply app_eq_nil in H as [-> H]. constructor; [reflexivity|].
      apply IH. exact H.
    + intros H. inversion H as [|? ? -> Hls]; subst. simpl. apply IH. exact Hls.
Qed.

Lemma nodup_nil {T : Type} (dec : forall x y : T, {x = y} + {x <> y})
  (l : list T) : nodup dec l = [] <-> l = [].
Proof.
  split; [|intros ->; reflexivity].
  destruct l as [|x l]; [reflexivity|]. intros H. exfalso.
  assert (In x (nodup dec (x :: l))) as Hin
    by (apply nodup_In; left; reflexivity).
  rewrite H in Hin. destruct Hin.
Qed.

(** X16.  Fitting the vectorizer raises [ValueError] exactly when no
    training sentence has a token; in particular [main] stops there on an
    empty training set, and otherwise the fit succeeds. *)
Theorem vectorizer_fit_raises_without_tokens
  (train_sents1 train_sents2 : list string) :
  (Syntactic.main_vectorizer train_sents1 train_sents2 = Py.Raises Py.ValueError
   <-> Forall (fun s => Sklearn.analyze s = []) (train_sents1 ++ train_sents2))
  /\ ((exists s, In s (train_sents1 ++ train_sents2) /\ Sklearn.analyze s <> [])
      -> exists vectorizer,
           Syntactic.main_vectorizer train_sents1 train_sents2
           = Py.Returns vectorizer)
  /\ Syntactic.main_vectorizer [] [] = Py.Raises Py.ValueError.
Proof.
  unfold Syntactic.main_vectorizer, Sklearn.tfidf_fit.
  set (docs := (train_sents1 ++ train_sents2)%list).
  assert (nodup string_dec (List.concat (map Sklearn.analyze docs)) = []
          <-> Forall (fun s => Sklearn.analyze s = []) docs) as Hnil.
  { rewrite nodup_nil, concat_nil, Forall_map. reflexivity. }
  split; [|split].
  - destruct (nodup string_dec (List.concat (map Sklearn.analyze docs)))
      as [|t voc] eqn:E.
    + split; [intros _; apply Hnil; reflexivity|reflexivity].
    + split; [discriminate|]. intros H. apply Hnil in H. discriminate H.
  - intros [s [Hs Htok]].
    destruct (nodup string_dec (List.concat (map Sklearn.analyze docs)))
      as [|t voc] eqn:E.
    + exfalso. apply Htok.
      assert (Forall (fun s => Sklearn.analyze s = []) docs) as Hall
        by (apply Hnil; reflexivity).
      rewrite Forall_forall in Hall. apply Hall. exact Hs.
    + eexists. reflexivity.
  - reflexivity.
Qed.

End OutOfVocabulary.

Lemma tfidf_similarities_nonnegative_witness :
  exists vectorizer,
    Syntactic.main_vectorizer ["a cat sat"; "a cat sat"]%string
                              ["a cat sat"; "a dog ran"]%string
    = Py.Returns vectorizer
    /\ List.length
         (Syntactic.compute_tfidf_similarities
            ["a cat sat"; "a cat sat"]%string ["a cat sat"; "a dog ran"]%string
            vectorizer)
       = Nat.min 2 2
    /\ Forall (fun sim => (0 <= sim)%R)
         (Syntactic.compute_tfidf_similarities
            ["a cat sat"; "a cat sat"]%string ["a cat sat"; "a dog ran"]%string
            vectorizer).
Proof.
  unfold Syntactic.main_vectorizer.
  destruct (Sklearn.tfidf_fit
              (["a cat sat"; "a cat sat"]%string
               ++ ["a cat sat"; "a dog ran"]%string)%list)
    as [vectorizer|e] eqn:E.
  - exists vectorizer. split; [reflexivity|].
    apply (@tfidf_similarities_nonnegative
             (["a cat sat"; "a cat sat"]%string
              ++ ["a cat sat"; "a dog ran"]%string)%list
             vectorizer
             ["a cat sat"; "a cat sat"]%string ["a cat sat"; "a dog ran"]%string E).
  - exfalso. unfold Sklearn.tfidf_fit in E.
    destruct (nodup string_dec _) eqn:N in E;
      [vm_compute in N; discriminate N | discriminate E].
Defined.

Lemma sentences_without_common_term_score_zero_witness :
  Syntactic.compute_tfidf_similarities ["a cat sat"]%string ["a dog ran"]%string
    {| Sklearn.vocabulary_ := ["cat"; "sat"; "dog"; "ran"]%string;
       Sklearn.idf_ := fun _ => 1%R |}
  = [0%R].
Proof.
  apply (@sentences_without_common_term_score_zero
           {| Sklearn.vocabulary_ := ["cat"; "sat"; "dog"; "ran"]%string;
              Sklearn.idf_ := fun _ => 1%R |}
           "a cat sat"%string "a dog ran"%string).
  intros t _ H1 H2. vm_compute in H1, H2.
  destruct H1 as [<-|[<-|[]]]; destruct H2 as [H2|[H2|[]]]; discriminate H2.
Defined.

(** ** The batched embedding scorer on lists of different lengths *)

Section UnevenBatches.

Variables (V S : Type).
Variable embed : string -> V.
Variable cosine_similarity : V -> V -> S.

Lemma pair_loop_raised (e1 e2 : list V) (e : Py.exn) (l : list nat) :
  fold_left (Semantic.pair_step cosine_similarity e1 e2) l (Py.Raises e)
  = Py.Raises e.
Proof. induction l as [|i l IH]; simpl; [reflexivity|exact IH]. Qed.

(** X17.  [compute_semantic_similarities] raises [IndexError] exactly when
    the second list is shorter than the first; when it is longer, its
    surplus sentences are encoded but take no part in the scores. *)
Theorem semantic_similarities_raise_on_short_second_list
  (sents1 sents2 : list string) :
  (Semantic.compute_semantic_similarities embed cosine_similarity sents1 sents2
   = Py.Raises Py.IndexError
   <-> List.length sents2 < List.length sents1)
  /\ (List.length sents1 <= List.length sents2 ->
      Semantic.compute_semantic_similarities embed cosine_similarity sents1 sents2
      = Semantic.compute_semantic_similarities embed cosine_similarity sents1
          (firstn (List.length sents1) sents2)).
Proof.
  split.
  - destruct (Nat.le_gt_cases (List.length sents1) (List.length sents2)) as [Hle|Hlt].
    + rewrite (semantic_similarities_value embed cosine_similarity _ _ Hle).
      split; [discriminate|lia].
    + split; [intros _; exact Hlt|intros _].
      unfold Semantic.compute_semantic_similarities.
      destruct (encode_halves embed sents1 sents2) as [-> ->].
      set (e1 := Semantic.encode embed sents1).
      set (e2 := Semantic.encode embed sents2).
      set (k := List.length sents2).
      replace (List.length sents1) with (k + Datatypes.S (List.length sents1 - Datatypes.S k))
        by (unfold k; lia).
      rewrite seq_app, fold_left_app.
      rewrite pair_loop
        by (unfold e1, e2, Semantic.encode; rewrite length_map; unfold k; lia).
      cbn [seq fold_left Nat.add]. unfold Semantic.pair_step at 2.
      replace (nth_error e2 k) with (@None V)
        by (symmetry; apply nth_error_None; unfold e2, Semantic.encode;
            rewrite length_map; unfold k; lia).
      destruct (nth_error e1 k); apply pair_loop_raised.
  - intros Hle.
    rewrite (semantic_similarities_value embed cosine_similarity _ _ Hle).
    rewrite semantic_similarities_value by (rewrite length_firstn; lia).
    f_equal. f_equal. clear Hle. revert sents2.
    induction sents1 as [|a l IH]; intros [|b l2]; simpl; try reflexivity.
    rewrite <- IH. reflexivity.
Qed.

End UnevenBatches.

(** ** The plotted series *)

Section PlottedSeries.

Lemma map_fst_combine_eq {T U : Type} (l1 : list T) :
  forall l2 : list U, List.length l1 = List.length l2 ->
    map fst (combine l1 l2) = l1 /\ map snd (combine l1 l2) = l2.
Proof.
  induction l1 as [|a l1 IH]; intros [|b l2] H; try discriminate H.
  - split; reflexivity.
  - injection H as H. destruct (IH l2 H) as [E1 E2].
    simpl. rewrite E1, E2. split; reflexivity.
Qed.

Lemma combine_fst_snd {T U : Type} (l : list (T * U)) :
  combine (map fst l) (map snd l) = l.
Proof.
  induction l as [|[a b] l IH]; simpl; [reflexivity|rewrite IH; reflexivity].
Qed.

Lemma Sorted_map {T U : Type} (R : T -> T -> Prop) (R' : U -> U -> Prop)
  (f : T -> U) (l : list T) :
  (forall a b, R a b -> R' (f a) (f b)) ->
  Sorted R l -> Sorted R' (map f l).
Proof.
  intros HR. induction 1 as [|a l Hs IH Hhd]; simpl; constructor.
  - exact IH.
  - destruct Hhd as [|b l Hab]; simpl; constructor. apply HR. exact Hab.
Qed.

(** X20.  The two lists handed to [plt.plot] are the predictions in
    ascending order and the ground truth rearranged along with them: pairing
    them up again gives the sorted pairs, so every plotted point is a
    (prediction, ground truth) pair of the input.  The values are numbers
    (none is NaN). *)
Theorem plotted_series_are_the_sorted_columns (preds gt : list float) :
  List.length preds = List.length gt ->
  (forall x, In x preds -> is_nan x = false) ->
  (forall y, In y gt -> is_nan y = false) ->
  let data := Predictor.main_data preds gt in
  Permutation (Main.x_sorted data) preds
  /\ Permutation (Main.y_sorted data) gt
  /\ Sorted (fun a b => (a <=? b)%float = true) (Main.x_sorted data)
  /\ combine (Main.x_sorted data) (Main.y_sorted data) = data.
Proof.
  intros Hlen Hp Hg data.
  assert (Permutation data (combine preds gt)) as Hperm
    by apply sorted_Permutation.
  destruct (map_fst_combine_eq preds gt Hlen) as [E1 E2].
  split; [|split; [|split]].
  - unfold Main.x_sorted. apply perm_trans with (map fst (combine preds gt)).
    + apply Permutation_map. exact Hperm.
    + rewrite E1. apply Permutation_refl.
  - unfold Main.y_sorted. apply perm_trans with (map snd (combine preds gt)).
    + apply Permutation_map. exact Hperm.
    + rewrite E2. apply Permutation_refl.
  - unfold Main.x_sorted. apply (Sorted_map (R := lex_le)).
    + intros a b [H|[H _]]; [apply ltb_leb|apply eqb_leb]; exact H.
    + apply main_data_Sorted. apply combine_numeric; assumption.
  - apply combine_fst_snd.
Qed.

End PlottedSeries.

Lemma plotted_series_are_the_sorted_columns_witness :
  let preds := [3; 1; 2; 1]%float in
  let gt := [1; 2; 5; 0]%float in
  let data := Predictor.main_data preds gt in
  Permutation (Main.x_sorted data) preds
  /\ Permutation (Main.y_sorted data) gt
  /\ Sorted (fun a b => (a <=? b)%float = true) (Main.x_sorted data)
  /\ combine (Main.x_sorted data) (Main.y_sorted data) = data.
Proof.
  apply (@plotted_series_are_the_sorted_columns [3; 1; 2; 1]%float [1; 2; 5; 0]%float).
  - reflexivity.
  - simpl. intros x [<-|[<-|[<-|[<-|[]]]]]; reflexivity.
  - simpl. intros x [<-|[<-|[<-|[<-|[]]]]]; reflexivity.
Defined.

(** ** The random predictor *)

Section RandomScores.

Variable Rng : Type.
Variable random : Rng -> float * Rng.
Variables low high : float.

Local Abbreviation draw :=
  (fun (st : list float * Rng) (_ : nat) =>
     let (v, g') := RandomPredictor.uniform random low high (snd st) in
     (fst st ++ [v], g')).

Lemma random_loop_acc (l : list nat) :
  forall acc g,
    fold_left draw l (acc, g)
    = (acc ++ fst (fold_left draw l ([], g)), snd (fold_left draw l ([], g))).
Proof.
  induction l as [|i l IH]; intros acc g; simpl.
  - rewrite app_nil_r. reflexivity.
  - destruct (RandomPredictor.uniform random low high g) as [v g'].
    rewrite IH, (IH [v] g'). simpl. rewrite <- app_assoc. reflexivity.
Qed.

Lemma random_loop_index_free (n : nat) :
  forall a st, fold_left draw (seq a n) st = fold_left draw (seq 0 n) st.
Proof.
  induction n as [|n IH]; intros a st; [reflexivity|].
  simpl. rewrite (IH (Datatypes.S a)), (IH 1%nat). reflexivity.
Qed.

Lemma random_loop_length (n : nat) :
  forall g, List.length (fst (fold_left draw (seq 0 n) ([], g))) = n.
Proof.
  induction n as [|n IH]; intros g; [reflexivity|].
  simpl. destruct (RandomPredictor.uniform random low high g) as [v g'].
  rewrite random_loop_acc, random_loop_index_free. simpl.
  rewrite IH. reflexivity.
Qed.

(** X21.  [random_uniform_predictor] returns exactly [num_pairs] scores and
    draws from the generator as often; asking for [n + m] scores is asking
    for [n] and then for [m] from where the generator then stands, as
    [main] does for the training and the test set. *)
Theorem random_scores_continue_the_stream (n m : nat) (g : Rng) :
  let first := RandomPredictor.random_uniform_predictor random n low high g in
  let second :=
    RandomPredictor.random_uniform_predictor random m low high (snd first) in
  List.length (fst first) = n
  /\ RandomPredictor.random_uniform_predictor random (n + m) low high g
     = (fst first ++ fst second, snd second).
Proof.
  cbv zeta. unfold RandomPredictor.random_uniform_predictor.
  split; [apply random_loop_length|].
  rewrite seq_app, fold_left_app. simpl.
  rewrite random_loop_index_free.
  destruct (fold_left draw (seq 0 n) ([], g)) as [scores g'] eqn:E.
  rewrite random_loop_acc. reflexivity.
Qed.

End RandomScores.

(** ** Raw scores and ground truth side by side *)

Section Alignment.

Lemma records_lengths (reader : list row) :
  let a := records_of reader in
  List.length (fst (fst a)) = List.length (snd a)
  /\ List.length (snd (fst a)) = List.length (snd a).
Proof. unfold records_of. simpl. rewrite !length_map. auto. Qed.

(** X22.  In each of the four scripts the raw scores computed for a loaded
    file are exactly as many as its ground-truth scores, so the regression
    is always handed two columns of the same length; the embedding scorer
    never raises [IndexError] on what the loader returns. *)
Theorem raw_scores_match_ground_truth (reader : list row) :
  (forall (Rng : Type) (random : Rng -> float * Rng) (g : Rng),
      let a := Predictor.load_sts_data_csv reader in
      List.length
        (fst (RandomPredictor.random_uniform_predictor random
                (List.length (fst (fst a))) 0%float 5%float g))
      = List.length (snd a))
  /\ (forall (World : Type) (chat : string -> World -> Llama.chat_outcome * World)
             (w : World),
         let a := LlamaLoader.load_sts_data_csv reader in
         List.length (fst (Llama.main_pred_raw chat (fst (fst a)) (snd (fst a)) w))
         = List.length (snd a))
  /\ (forall vectorizer,
         let a := Syntactic.load_sts_data_tsv reader in
         List.length
           (Syntactic.compute_tfidf_similarities (fst (fst a)) (snd (fst a))
              vectorizer)
         = List.length (snd a))
  /\ (forall (V S : Type) (embed : string -> V) (cosine_similarity : V -> V -> S),
         let a := SemanticFiles.load_sts_data_csv reader in
         exists sims,
           Semantic.compute_semantic_similarities embed cosine_similarity
             (fst (fst a)) (snd (fst a)) = Py.Returns sims
           /\ List.length sims = List.length (snd a)).
Proof.
  pose proof (for_rows_records llama_load_row_keeps reader) as Hl.
  pose proof (for_rows_records semantic_load_row_keeps reader) as Hs.
  pose proof (for_rows_records predictor_load_row_keeps reader) as Hp.
  pose proof (for_rows_records syntactic_load_row_keeps reader) as Hy.
  destruct (records_lengths reader) as [L1 L2]. cbv zeta in *.
  split; [|split; [|split]].
  - intros Rng random g. unfold Predictor.load_sts_data_csv. rewrite Hp.
    unfold RandomPredictor.random_uniform_predictor.
    rewrite random_loop_length. exact L1.
  - intros World chat w. unfold LlamaLoader.load_sts_data_csv. rewrite Hl.
    unfold Llama.main_pred_raw.
    rewrite pred_raw_loop_length, length_combine, L1, L2. apply Nat.min_id.
  - intros vectorizer. unfold Syntactic.load_sts_data_tsv. rewrite Hy.
    unfold Syntactic.compute_tfidf_similarities.
    rewrite length_map, length_combine, L1, L2. apply Nat.min_id.
  - intros V S embed cosine_similarity.
    unfold SemanticFiles.load_sts_data_csv. rewrite Hs.
    eexists. split.
    + apply semantic_similarities_value. rewrite L1, L2. apply Nat.le_refl.
    + rewrite length_map, length_combine, L1, L2. apply Nat.min_id.
Qed.

End Alignment.

(** ** Letter case in the lexical-overlap scorer *)

Section LetterCase.

Lemma lower_idempotent (c : ascii) : Py.lower (Py.lower c) = Py.lower c.
Proof.
  destruct c as [b0 b1 b2 b3 b4 b5 b6 b7].
  destruct b0, b1, b2, b3, b4, b5, b6, b7; vm_compute; reflexivity.
Qed.

Lemma analyze_lower (doc : string) :
  Sklearn.analyze (Py.lower_string (list_ascii_of_string doc))
  = Sklearn.analyze doc.
Proof.
  unfold Sklearn.analyze, Py.lower_string.
  rewrite list_ascii_of_string_of_list_ascii, map_map.
  f_equal. f_equal. f_equal. apply map_ext. apply lower_idempotent.
Qed.

(** X23.  With [lowercase=True] letter case plays no part in the score:
    lower-casing either sentence of a pair leaves its similarity as it is. *)
Theorem tfidf_similarities_ignore_letter_case
  (vectorizer : Sklearn.TfidfVectorizer) (sents1 sents2 : list string) :
  Syntactic.compute_tfidf_similarities
    (map (fun s => Py.lower_string (list_ascii_of_string s)) sents1)
    (map (fun s => Py.lower_string (list_ascii_of_string s)) sents2)
    vectorizer
  = Syntactic.compute_tfidf_similarities sents1 sents2 vectorizer
  /\ Syntactic.compute_tfidf_similarities
       (map (fun s => Py.lower_string (list_ascii_of_string s)) sents1)
       sents2 vectorizer
     = Syntactic.compute_tfidf_similarities sents1 sents2 vectorizer.
Proof.
  assert (forall s, Sklearn.transform vectorizer
                      (Py.lower_string (list_ascii_of_string s))
                    = Sklearn.transform vectorizer s) as Htransform.
  { intros s. unfold Sklearn.transform. rewrite analyze_lower. reflexivity. }
  unfold Syntactic.compute_tfidf_similarities. split.
  - revert sents2. induction sents1 as [|a l IH]; intros [|b l2]; simpl;
      try reflexivity.
    rewrite IH, !Htransform. reflexivity.
  - revert sents2. induction sents1 as [|a l IH]; intros [|b l2]; simpl;
      try reflexivity.
    rewrite IH, !Htransform. reflexivity.
Qed.

End LetterCase.

(** ** Sorting the sorted series again *)

Section Resorting.

Local Open Scope float_scope.

Lemma lex_le_not_tuple_lt (a b : float * float) :
  lex_le a b -> Py.tuple_lt b a = false.
Proof.
  unfold lex_le, Py.tuple_lt. intros [H|[H1 H2]].
  - destruct (fst b =? fst a) eqn:E.
    + rewrite eqb_sym in E. apply eqb_place in E. apply ltb_place in H.
      exfalso. apply (place_lt_irrefl H). exact E.
    + apply leb_not_ltb. apply ltb_leb. exact H.
  - rewrite eqb_sym, H1.
    destruct (snd b =? snd a); [reflexivity|].
    apply leb_not_ltb. exact H2.
Qed.

Lemma sorted_of_Sorted (l : list (float * float)) :
  Sorted lex_le l ->
  Py.sorted (fun p => (fst p, snd p)) Py.tuple_lt l = l.
Proof.
  induction 1 as [|a l Hs IH Hhd]; [reflexivity|].
  simpl. rewrite IH. destruct Hhd as [|b l Hab]; [reflexivity|].
  simpl. change (fst b, snd b) with (fst b, snd b).
  replace (Py.tuple_lt (fst b, snd b) (fst a, snd a)) with false;
    [reflexivity|].
  symmetry. apply (lex_le_not_tuple_lt (a := (fst a, snd a)) (b := (fst b, snd b))).
  exact Hab.
Qed.

(** X24.  Sorting is settled after one pass: the plotted columns, sorted
    again as [main] sorts, come back as the same series.  The values are
    numbers (none is NaN). *)
Theorem sorted_series_is_a_fixed_point (preds gt : list float) :
  (forall x, In x preds -> is_nan x = false) ->
  (forall y, In y gt -> is_nan y = false) ->
  let data := Predictor.main_data preds gt in
  Predictor.main_data (Main.x_sorted data) (Main.y_sorted data) = data.
Proof.
  intros Hp Hg data. unfold Predictor.main_data at 1.
  unfold Main.x_sorted, Main.y_sorted. rewrite combine_fst_snd.
  apply sorted_of_Sorted. apply main_data_Sorted.
  apply combine_numeric; assumption.
Qed.

End Resorting.

Lemma sorted_series_is_a_fixed_point_witness :
  let preds := [3; 1; 2; 1]%float in
  let gt := [1; 2; 5; 0]%float in
  let data := Predictor.main_data preds gt in
  Predictor.main_data (Main.x_sorted data) (Main.y_sorted data) = data.
Proof.
  apply (@sorted_series_is_a_fixed_point [3; 1; 2; 1]%float [1; 2; 5; 0]%float).
  - simpl. intros x [<-|[<-|[<-|[<-|[]]]]]; reflexivity.
  - simpl. intros x [<-|[<-|[<-|[<-|[]]]]]; reflexivity.
Defined.

(** ** Symmetry of the embedding scorer *)

Section SymmetricCosine.

Variables (V S : Type).
Variable embed : string -> V.
Variable cosine_similarity : V -> V -> S.

(** X25.  When the library's cosine is symmetric, so is the batched scorer
    on lists of the same length: swapping the two lists gives the same
    scores. *)
Theorem semantic_similarities_symmetric (sents1 sents2 : list string) :
  (forall u v, cosine_similarity u v = cosine_similarity v u) ->
  List.length sents1 = List.length sents2 ->
  Semantic.compute_semantic_similarities embed cosine_similarity sents1 sents2
  = Semantic.compute_semantic_similarities embed cosine_similarity sents2 sents1.
Proof.
  intros Hsym Hlen.
  rewrite !semantic_similarities_value by lia.
  f_equal. clear Hlen. revert sents2.
  induction sents1 as [|a l IH]; intros [|b l2]; simpl; try reflexivity.
  rewrite IH, Hsym. reflexivity.
Qed.

End SymmetricCosine.

Lemma semantic_similarities_symmetric_witness :
  Semantic.compute_semantic_similarities String.length Nat.eqb
    ["a cat sat"; "a cat sat"]%string ["a cat sat"; "a dog barked"]%string
  = Semantic.compute_semantic_similarities String.length Nat.eqb
      ["a cat sat"; "a dog barked"]%string ["a cat sat"; "a cat sat"]%string.
Proof.
  apply (@semantic_similarities_symmetric nat bool String.length Nat.eqb
           ["a cat sat"; "a cat sat"]%string ["a cat sat"; "a dog barked"]%string).
  - intros u v. apply Nat.eqb_sym.
  - reflexivity.
Defined.
